(** * TkAutoBox: a shallow embedding of [tkautobox.py]

    The module builds a data-entry dialog from a list of field
    dictionaries, runs the toolkit's event loop and hands back a plain
    mapping from field name to value.  Python dictionaries keyed by
    strings are finite maps ([gmap string _]); exceptions are an error
    result; the Tk toolkit, which is not part of the module, is a record
    of the operations the module calls. *)

From stdpp Require Import base strings list option gmap fin_maps pretty.

Open Scope string_scope.

(** ** Python values *)

(** A field dictionary has the keys listed in the docstring of
    [Autobox.__init__], each of them optional: [Some v] when the key is
    present, [None] when it is not.  Names, labels, types and options are
    strings as documented; the default "depends on widget type" and is any
    value. *)
Inductive pyval :=
  | PyNone
  | PyBool (b : bool)
  | PyInt (n : Z)
  | PyStr (s : string)
  | PyList (l : list field)
with field :=
  | Field (name : option string) (label : option string)
          (type : option string) (default : option pyval)
          (options : option (list string)).

Definition f_name (f : field) : option string :=
  match f with Field n _ _ _ _ => n end.
Definition f_label (f : field) : option string :=
  match f with Field _ l _ _ _ => l end.
Definition f_type (f : field) : option string :=
  match f with Field _ _ t _ _ => t end.
Definition f_default (f : field) : option pyval :=
  match f with Field _ _ _ d _ => d end.
Definition f_options (f : field) : option (list string) :=
  match f with Field _ _ _ _ o => o end.

(** Python truthiness, as used by [if v], [v and ..] and the filter. *)
Definition truthy (v : pyval) : bool :=
  match v with
  | PyNone => false
  | PyBool b => b
  | PyInt n => negb (n =? 0)%Z
  | PyStr s => negb (String.eqb s "")
  | PyList l => negb (Nat.eqb (length l) 0)
  end.

(** ** Exceptions *)

Inductive exn :=
  | KeyError (k : string)
  | TypeError
  | AttributeError
  | TclError
  | ValueError.

Inductive result (A : Type) :=
  | Ok (a : A)
  | Err (e : exn).
Arguments Ok {A} a.
Arguments Err {A} e.

Global Instance result_ret : MRet result := λ A a, Ok a.
Global Instance result_bind : MBind result := λ A B k r,
  match r with
  | Ok a => k a
  | Err e => Err e
  end.

(** ** The toolkit *)

(** The two classes of Tk variable the module instantiates. *)
Inductive vartype := StringVar | BooleanVar.

Global Instance vartype_eq_dec : EqDecision vartype.
Proof. solve_decision. Defined.

(** What the module needs of Tk.  A Tcl variable holds a string.
    - [theme_names]: the tuple returned by [Style().theme_names()];
    - [tcl_str v]: the string a variable holds after a Python value [v]
      was written to it;
    - [getboolean t]: Tcl's reading of [t] as a boolean, [None] when it
      raises;
    - [BooleanVar_set v]: the string a [BooleanVar] holds after [set(v)],
      [None] when [set] raises;
    - [pad_accepted v]: whether [.grid(padx=v, pady=v)] takes [v] as a
      padding; it raises [TclError] otherwise. *)
Record Toolkit := {
  theme_names : list string;
  tcl_str : pyval → string;
  getboolean : string → option bool;
  BooleanVar_set : pyval → option string;
  pad_accepted : pyval → bool }.

(** A Tk variable: its class and the string it holds. *)
Record var := Var { var_type : vartype; var_value : string }.

(** [StringVar()] starts as the empty string, [BooleanVar()] as false. *)
Definition new_var (vt : vartype) : var :=
  match vt with
  | StringVar => Var StringVar ""
  | BooleanVar => Var BooleanVar "0"
  end.

Definition var_set (tk : Toolkit) (c : var) (v : pyval) : result var :=
  match var_type c with
  | StringVar => Ok (Var StringVar (tcl_str tk v))
  | BooleanVar =>
      match BooleanVar_set tk v with
      | Some t => Ok (Var BooleanVar t)
      | None => Err TclError
      end
  end.

(** [StringVar.get] returns a [str], [BooleanVar.get] a [bool] or raises. *)
Definition var_get (tk : Toolkit) (c : var) : result pyval :=
  match var_type c with
  | StringVar => Ok (PyStr (var_value c))
  | BooleanVar =>
      match getboolean tk (var_value c) with
      | Some b => Ok (PyBool b)
      | None => Err ValueError
      end
  end.

(** The values a ttk [Checkbutton] writes when it is switched on and off;
    the module passes neither [onvalue] nor [offvalue]. *)
Definition onvalue : string := "1".
Definition offvalue : string := "0".

(** ** Widgets *)

Inductive callback := Cb_ok_clicked | Cb_cancel_clicked.

Inductive widget :=
  | Label (text : pyval) (style : option string)
  | Combobox (textvariable : string) (values : option (list string)) (state : string)
  | Checkbutton (variable : string)
  | Entry (textvariable : string) (show : option string)
  | Button (text : pyval) (command : callback).

(** A widget placed by [.grid(row=.., column=..)]. *)
Record placed := Placed { p_row : nat; p_column : nat; p_widget : widget }.

(** ** The dialog *)

(** The class attribute [variable_types] (line 22). *)
Definition variable_types : gmap string vartype :=
  <["text" := StringVar]> (<["hidden_text" := StringVar]>
  (<["checkbox" := BooleanVar]> (<["select" := StringVar]> ∅))).

(** The attributes of an [Autobox] instance once [__init__] has run.
    [theme_in_use] is the theme of the [Style] object, [grid] the widgets
    in the order they were placed, [bindings] the key bindings of the
    window.  Until a callback rebinds it, [self.data] maps each field
    name to its Tk variable. *)
Record Autobox := {
  title_string : pyval;
  header_string : pyval;
  fields : list field;
  padding : pyval;
  error_message : pyval;
  theme : pyval;
  ok_label : pyval;
  theme_in_use : string;
  data : gmap string var;
  widgets : gmap string widget;
  ok_button : widget;
  cancel_button : widget;
  grid : list placed;
  bindings : gmap string callback }.

(** [kwargs.get(k, d)]; [kwargs.get(k)] is [kwargs_get kwargs k PyNone]. *)
Definition kwargs_get (kwargs : gmap string pyval) (k : string) (d : pyval) : pyval :=
  default d (kwargs !! k).

(** Lines 54-56: [if self.theme in s.theme_names(): s.theme_use(self.theme)].
    The names are strings, so only a string can be among them. *)
Definition theme_known (tk : Toolkit) (theme : pyval) : bool :=
  match theme with
  | PyStr t => bool_decide (t ∈ theme_names tk)
  | _ => false
  end.

Definition set_theme (tk : Toolkit) (theme : pyval) (current : string) : string :=
  match theme with
  | PyStr t => if theme_known tk theme then t else current
  | _ => current
  end.

(** [x.get("name")] as a condition: the key is there and its string is
    not empty. *)
Definition has_name (f : field) : bool :=
  match f_name f with
  | Some s => truthy (PyStr s)
  | None => false
  end.

(** [field.get("name")] for a field that passed the filter of line 68. *)
Definition field_name (f : field) : string := default "" (f_name f).

(** [field.get("type", "text")]. *)
Definition field_type (f : field) : string := default "text" (f_type f).

(** [field.get("default", "")]. *)
Definition field_default (f : field) : pyval := default (PyStr "") (f_default f).

(** Iterating over [self.fields] and calling [x.get] on each item
    (line 68): a list of dictionaries is fine, the empty string has no
    items, another string yields characters, which have no [get]; the
    other values are not iterable. *)
Definition iter_fields (v : pyval) : result (list field) :=
  match v with
  | PyList l => Ok l
  | PyStr s => if String.eqb s "" then Ok [] else Err AttributeError
  | _ => Err TypeError
  end.

(** Lines 72-74, for one field. *)
Definition create_variable (tk : Toolkit) (data : gmap string var) (f : field)
  : result (gmap string var) :=
  let fn := field_name f in
  vt ← match variable_types !! field_type f with
       | Some vt => Ok vt
       | None => Err (KeyError (field_type f))
       end;
  c ← var_set tk (new_var vt) (field_default f);
  Ok (<[fn := c]> data).

(** Lines 71-74. *)
Fixpoint create_variables (tk : Toolkit) (fs : list field) (data : gmap string var)
  : result (gmap string var) :=
  match fs with
  | [] => Ok data
  | f :: fs' => data' ← create_variable tk data f; create_variables tk fs' data'
  end.

(** Lines 89-96: the input widget of a field, bound to the variable
    stored under the field's name. *)
Definition field_widget (f : field) : widget :=
  let fn := field_name f in
  let ft := field_type f in
  if String.eqb ft "select" then Combobox fn (f_options f) "readonly"
  else if String.eqb ft "checkbox" then Checkbutton fn
  else if String.eqb ft "hidden_text" then Entry fn (Some "*")
  else Entry fn None.

(** [field.get("label", fn)]. *)
Definition field_label (f : field) : string := default (field_name f) (f_label f).

(** Lines 83-98: [n] is the index [enumerate] gives the first field. *)
Fixpoint build_rows (n : nat) (fs : list field) : list placed :=
  match fs with
  | [] => []
  | f :: fs' =>
      Placed (n + 2) 0 (Label (PyStr (field_label f)) None)
      :: Placed (n + 2) 1 (field_widget f)
      :: build_rows (S n) fs'
  end.

Fixpoint build_widgets (fs : list field) (ws : gmap string widget) : gmap string widget :=
  match fs with
  | [] => ws
  | f :: fs' => build_widgets fs' (<[field_name f := field_widget f]> ws)
  end.

(** Lines 79-82: the header, and the error label when there is a
    message. *)
Definition header_rows (header_string error_message : pyval) : list placed :=
  Placed 0 0 (Label header_string None)
  :: (if truthy error_message
      then [Placed 1 0 (Label error_message (Some "Error.TLabel"))]
      else []).

(** Lines 100-106: the spacer and the two buttons. *)
Definition footer_rows (ok_button cancel_button : widget) : list placed :=
  [Placed 998 0 (Label PyNone None);
   Placed 999 0 ok_button;
   Placed 999 1 cancel_button].

(** Calling [Autobox] binds the new instance to the parameter [self] of
    [__init__(self, **kwargs)] (line 24): a keyword of that name is a
    second value for it. *)
Definition bind_self (kwargs : gmap string pyval) : result unit :=
  match kwargs !! "self" with
  | Some _ => Err TypeError
  | None => Ok ()
  end.

(** [.grid(.., padx=self.padding, pady=self.padding)] (lines 82, 97 and
    98). *)
Definition grid_padding (tk : Toolkit) (padding : pyval) : result unit :=
  if pad_accepted tk padding then Ok () else Err TclError.

(** The calls that pass the padding: the one for the error label, made
    when there is a message, and those in the loop over the fields. *)
Definition uses_padding (error_message : pyval) (fields : list field) : bool :=
  truthy error_message || match fields with [] => false | _ :: _ => true end.

(** The call of [Autobox] with keywords, that is
    [Autobox.__init__(self, **kwargs)], started while [current] is the
    theme in use. *)
Definition Autobox_init (tk : Toolkit) (kwargs : gmap string pyval) (current : string)
  : result Autobox :=
  _ ← bind_self kwargs;
  let title_string := kwargs_get kwargs "title_string" (PyStr "") in
  let header_string := kwargs_get kwargs "header_string" (PyStr "") in
  let fields0 := kwargs_get kwargs "fields" (PyList []) in
  let padding := kwargs_get kwargs "padding" (PyInt 5) in
  let error_message := kwargs_get kwargs "error_message" PyNone in
  let theme := kwargs_get kwargs "theme" PyNone in
  let ok_label := kwargs_get kwargs "ok_label" (PyStr "OK") in
  let theme_in_use := set_theme tk theme current in
  fs ← iter_fields fields0;
  let fields := List.filter has_name fs in
  data ← create_variables tk fields ∅;
  _ ← (if uses_padding error_message fields then grid_padding tk padding else Ok ());
  Ok {| title_string := title_string;
        header_string := header_string;
        fields := fields;
        padding := padding;
        error_message := error_message;
        theme := theme;
        ok_label := ok_label;
        theme_in_use := theme_in_use;
        data := data;
        widgets := build_widgets fields ∅;
        ok_button := Button ok_label Cb_ok_clicked;
        cancel_button := Button (PyStr "Cancel") Cb_cancel_clicked;
        grid :=
          header_rows header_string error_message
          ++ build_rows 0 fields
          ++ footer_rows (Button ok_label Cb_ok_clicked)
                         (Button (PyStr "Cancel") Cb_cancel_clicked);
        bindings := <["<Return>" := Cb_ok_clicked]>
                      (<["<Escape>" := Cb_cancel_clicked]> ∅) |}.

(** ** Callbacks and the event loop *)

(** [ok_clicked] (lines 112-114): [self.data] is rebound to the plain
    mapping [{key: var.get() ...}] and the loop is told to quit; the
    result is the rebound mapping.  A [get] that raises leaves
    [self.data] as it was. *)
Definition ok_clicked (tk : Toolkit) (self : Autobox) : result (gmap string pyval) :=
  map_fold (λ key v acc, r ← acc; x ← var_get tk v; Ok (<[key := x]> r))
           (Ok ∅) (data self).

(** [cancel_clicked] (lines 116-118): [self.data = {}]. *)
Definition cancel_clicked (self : Autobox) : gmap string pyval := ∅.

(** What the user can do to an input widget, named by its position in
    [grid]: leave a single-line entry holding [s], flip a check button,
    pick the [i]-th value of a drop-down list. *)
Inductive edit :=
  | Type_text (w : nat) (s : string)
  | Toggle (w : nat)
  | Choose (w : nat) (i : nat).

Inductive button := Ok_button | Cancel_button.

(** Besides edits, clicks on the two buttons and keys, the user can
    close the window; no handler is installed for that, so Tk destroys
    the window. *)
Inductive event :=
  | Edit (e : edit)
  | Click (b : button)
  | Key (k : string)
  | Close_window.

(** A widget writes the string [t] into the variable it is bound to. *)
Definition write_var (name t : string) (self : Autobox) : Autobox :=
  {| title_string := title_string self;
     header_string := header_string self;
     fields := fields self;
     padding := padding self;
     error_message := error_message self;
     theme := theme self;
     ok_label := ok_label self;
     theme_in_use := theme_in_use self;
     data := alter (λ c, Var (var_type c) t) name (data self);
     widgets := widgets self;
     ok_button := ok_button self;
     cancel_button := cancel_button self;
     grid := grid self;
     bindings := bindings self |}.

(** An edit reaches the variable of the widget it is made on.  A
    read-only [Combobox] takes no typed text and offers its [values]
    only; an edit that does not fit the widget changes nothing. *)
Definition user_edit (e : edit) (self : Autobox) : Autobox :=
  match e with
  | Type_text w s =>
      match p_widget <$> grid self !! w with
      | Some (Entry name _) => write_var name s self
      | _ => self
      end
  | Toggle w =>
      match p_widget <$> grid self !! w with
      | Some (Checkbutton name) =>
          match data self !! name with
          | Some c =>
              write_var name
                (if String.eqb (var_value c) onvalue then offvalue else onvalue) self
          | None => self
          end
      | _ => self
      end
  | Choose w i =>
      match p_widget <$> grid self !! w with
      | Some (Combobox name (Some vals) _) =>
          match vals !! i with
          | Some s => write_var name s self
          | None => self
          end
      | _ => self
      end
  end.

(** One turn of the loop goes on with the dialog, quits with the rebound
    [self.data], or ends because the window is gone. *)
Inductive step :=
  | Continue (self : Autobox)
  | Quit (d : gmap string pyval)
  | Closed.

(** Tk reports an exception raised inside a callback and keeps the loop
    running; [self.quit()] was not reached. *)
Definition run_callback (tk : Toolkit) (cb : callback) (self : Autobox) : step :=
  match cb with
  | Cb_ok_clicked =>
      match ok_clicked tk self with
      | Ok r => Quit r
      | Err _ => Continue self
      end
  | Cb_cancel_clicked => Quit (cancel_clicked self)
  end.

Definition dispatch (tk : Toolkit) (ev : event) (self : Autobox) : step :=
  match ev with
  | Edit e => Continue (user_edit e self)
  | Click b =>
      match (match b with Ok_button => ok_button self
                        | Cancel_button => cancel_button self end) with
      | Button _ cb => run_callback tk cb self
      | _ => Continue self
      end
  | Key k =>
      match bindings self !! k with
      | Some cb => run_callback tk cb self
      | None => Continue self
      end
  | Close_window => Closed
  end.

(** How the loop came to its end: a callback rebound [self.data] to [d]
    and called [self.quit()], or the window was destroyed. *)
Inductive loop_end :=
  | Quit_with (d : gmap string pyval)
  | Window_closed.

(** [self.mainloop()] fed with the events of the user: [None] while the
    loop is still waiting for one. *)
Fixpoint mainloop (tk : Toolkit) (self : Autobox) (events : list event)
  : option loop_end :=
  match events with
  | [] => None
  | ev :: events' =>
      match dispatch tk ev self with
      | Continue self' => mainloop tk self' events'
      | Quit d => Some (Quit_with d)
      | Closed => Some Window_closed
      end
  end.

(** ** The wrappers *)

Inductive outcome :=
  | Returned (d : gmap string pyval)
  | Raised (e : exn)
  | Waiting.

(** [autobox] (lines 120-125).  After the loop [ab.destroy()] is called:
    when the window was closed the application is gone already and
    [destroy] raises [TclError]. *)
Definition autobox (tk : Toolkit) (kwargs : gmap string pyval) (current : string)
    (events : list event) : outcome :=
  match Autobox_init tk kwargs current with
  | Err e => Raised e
  | Ok ab =>
      match mainloop tk ab events with
      | Some (Quit_with d) => Returned d
      | Some Window_closed => Raised TclError
      | None => Waiting
      end
  end.

(** [kwargs.get(k) and kwargs.pop(k) or d]: the value and what is left
    of [kwargs]. *)
Definition get_and_pop_or (kwargs : gmap string pyval) (k : string) (d : pyval)
  : pyval * gmap string pyval :=
  match kwargs !! k with
  | Some v => if truthy v then (v, delete k kwargs) else (d, kwargs)
  | None => (d, kwargs)
  end.

(** [default_fields + additional_fields]. *)
Definition list_add (l : list field) (v : pyval) : result (list field) :=
  match v with
  | PyList l' => Ok (l ++ l')%list
  | _ => Err TypeError
  end.

(** [f(k1=v1, .., **kwargs)]: a keyword given twice is a [TypeError]. *)
Definition call_keywords (named : list (string * pyval)) (kwargs : gmap string pyval)
  : result (gmap string pyval) :=
  if forallb (λ kv, bool_decide (kwargs !! kv.1 = None)) named
  then Ok (list_to_map named ∪ kwargs)
  else Err TypeError.

(** Lines 138-141. *)
Definition default_fields (default_username : pyval) : list field :=
  [Field (Some "username") (Some "Username: ") (Some "text")
         (Some default_username) None;
   Field (Some "password") (Some "Password: ") (Some "hidden_text") None None].

(** [loginbox] (lines 127-144). *)
Definition loginbox (tk : Toolkit) (kwargs : gmap string pyval) (current : string)
    (events : list event) : outcome :=
  let '(additional_fields, kwargs) :=
    get_and_pop_or kwargs "additional_fields" (PyList []) in
  let ok_label := kwargs_get kwargs "ok_label" (PyStr "Log In") in
  let '(default_username, kwargs) :=
    get_and_pop_or kwargs "default_username" (PyStr "") in
  let title := kwargs_get kwargs "title" (PyStr "Log In") in
  match list_add (default_fields default_username) additional_fields with
  | Err e => Raised e
  | Ok fields =>
      match call_keywords [("fields", PyList fields); ("ok_label", ok_label);
                           ("title_string", title)] kwargs with
      | Err e => Raised e
      | Ok kw => autobox tk kw current events
      end
  end.

(** ** Two toolkits to run the model on *)

(** The spellings of a boolean the sample reads: the eight words Tcl
    documents, in lower case. *)
Definition Tcl_GetBoolean (t : string) : option bool :=
  if bool_decide (t ∈ ["1"; "true"; "yes"; "on"]) then Some true
  else if bool_decide (t ∈ ["0"; "false"; "no"; "off"]) then Some false
  else None.

(** Strings are stored as they are, booleans as [1] and [0], integers in
    decimal. *)
Definition sample_tcl_str (v : pyval) : string :=
  match v with
  | PyStr s => s
  | PyBool b => if b then "1" else "0"
  | PyInt n => pretty n
  | PyNone => "None"
  | PyList _ => ""
  end.

(** [BooleanVar.set] passing its argument through [getboolean] first, as
    current versions of tkinter do. *)
Definition checked_BooleanVar_set (v : pyval) : option string :=
  match v with
  | PyBool b => Some (if b then "1" else "0")
  | PyInt n => Some (if (n =? 0)%Z then "0" else "1")
  | PyStr s => (λ b : bool, if b then "1" else "0") <$> Tcl_GetBoolean s
  | _ => None
  end.

(** A whole number of pixels, with one of the units [c], [i], [m], [p]
    if any. *)
Fixpoint is_distance (seen : bool) (s : string) : bool :=
  match s with
  | EmptyString => seen
  | String a s' =>
      if bool_decide (a ∈ String.list_ascii_of_string "0123456789")
      then is_distance true s'
      else seen && String.eqb s' "" && bool_decide (a ∈ String.list_ascii_of_string "cimp")
  end.

(** Paddings are distances that are not negative; tkinter leaves out an
    option that is [None]. *)
Definition sample_pad_accepted (v : pyval) : bool :=
  match v with
  | PyNone => true
  | PyBool _ => true
  | PyInt n => (0 <=? n)%Z
  | PyStr s => is_distance false s
  | PyList _ => false
  end.

Definition tkinter : Toolkit :=
  {| theme_names := ["clam"; "alt"; "default"; "classic"];
     tcl_str := sample_tcl_str;
     getboolean := Tcl_GetBoolean;
     BooleanVar_set := checked_BooleanVar_set;
     pad_accepted := sample_pad_accepted |}.

(** [BooleanVar.set] inherited from [Variable], storing whatever it is
    given, as tkinter did when the module was written. *)
Definition tkinter_2013 : Toolkit :=
  {| theme_names := ["clam"; "alt"; "default"; "classic"];
     tcl_str := sample_tcl_str;
     getboolean := Tcl_GetBoolean;
     BooleanVar_set := λ v, Some (sample_tcl_str v);
     pad_accepted := sample_pad_accepted |}.

Definition kw (l : list (string * pyval)) : gmap string pyval := list_to_map l.

Definition ex_fields : list field :=
  [Field (Some "username") None (Some "text") (Some (PyStr "bob")) None;
   Field None (Some "Orphan") None None None;
   Field (Some "active") None (Some "checkbox") (Some (PyBool true)) None;
   Field (Some "role") None (Some "select") (Some (PyStr "A")) (Some ["A"; "B"])].

(** ** Vocabulary of the properties *)

(** [kwargs.get("fields", [])]. *)
Definition fields_arg (kwargs : gmap string pyval) : pyval :=
  kwargs_get kwargs "fields" (PyList []).

(** The exception a computation ends with, if any. *)
Definition raises {A} (r : result A) : option exn :=
  match r with
  | Ok _ => None
  | Err e => Some e
  end.

(** The two ways to commit and the two ways to cancel. *)
Definition commits : list event := [Click Ok_button; Key "<Return>"].
Definition cancels : list event := [Click Cancel_button; Key "<Escape>"].

(** A sequence of edits, first to last. *)
Definition user_edits (edits : list edit) (self : Autobox) : Autobox :=
  foldl (λ s e, user_edit e s) self edits.

(** [r] holds what [get] returns for every variable of [d]. *)
Definition reads (tk : Toolkit) (d : gmap string var) (r : gmap string pyval) : Prop :=
  ∀ k, match d !! k with
       | Some c => ∃ v, var_get tk c = Ok v ∧ r !! k = Some v
       | None => r !! k = None
       end.

(** Two states of one dialog: the same form, and under every name a
    variable of the same class. *)
Definition same_form (a b : Autobox) : Prop :=
  fields a = fields b ∧ grid a = grid b ∧
  ok_button a = ok_button b ∧ cancel_button a = cancel_button b ∧
  bindings a = bindings b ∧
  ∀ k, var_type <$> data a !! k = var_type <$> data b !! k.

(** The buttons and keys are wired as lines 103-110 wire them. *)
Definition wired (self : Autobox) : Prop :=
  (∃ l, ok_button self = Button l Cb_ok_clicked) ∧
  (∃ l, cancel_button self = Button l Cb_cancel_clicked) ∧
  bindings self !! "<Return>" = Some Cb_ok_clicked ∧
  bindings self !! "<Escape>" = Some Cb_cancel_clicked.

(** A string a select field can hold: the one it was seeded with, or one
    of its options. *)
Definition select_value (tk : Toolkit) (f : field) (t : string) : Prop :=
  t = tcl_str tk (field_default f) ∨ ∃ opts, f_options f = Some opts ∧ t ∈ opts.

Definition select_ok (tk : Toolkit) (f : field) (d : gmap string var) : Prop :=
  ∀ c, d !! field_name f = Some c → select_value tk f (var_value c).

(** No other spec of the list bears the name of [f]. *)
Definition unique_name (fs : list field) (f : field) : Prop :=
  ∀ g, g ∈ fs → field_name g = field_name f → g = f.

(** The widgets [__init__] puts on the grid: labels, buttons, and the
    input widget of a field whose type is in [variable_types]. *)
Definition widget_from (fs : list field) (w : widget) : Prop :=
  (∃ t st, w = Label t st) ∨ (∃ t cb, w = Button t cb) ∨
  ∃ g vt, g ∈ fs ∧ variable_types !! field_type g = Some vt ∧ w = field_widget g.

(** ** The script *)

(** Lines 146-169, the module run as a program: it asks for a login
    until the user cancels or gives the test user and password.  Each
    dialog gets the events of one element of [sessions]. *)
Inductive script_outcome :=
  | Authentication_cancelled
  | Authentication_success
  | Script_raised (e : exn)
  | Script_waiting.

Definition test_user : string := "SomeUser".
Definition test_password : string := "Password".

(** The keywords of the call of lines 154-161. *)
Definition script_kwargs (error_message : pyval) : gmap string pyval :=
  list_to_map
    [("header_string", PyStr "Log in to secure server");
     ("title_string", PyStr "Login");
     ("default_username", PyStr test_user);
     ("error_message", error_message);
     ("theme", PyStr "alt");
     ("additional_fields",
      PyList [Field (Some "domain") (Some "Login Domain: ") (Some "select")
                    (Some (PyStr "Local")) (Some ["Local"; "US.gov"; "RU.gov"]);
              Field (Some "readonly") (Some "Readonly access?") (Some "checkbox")
                    (Some (PyBool false)) None])].

(** [res.get(k) == s] for a string [s]. *)
Definition dict_get_is (res : gmap string pyval) (k s : string) : bool :=
  match res !! k with
  | Some (PyStr t) => String.eqb t s
  | _ => false
  end.

Fixpoint script_loop (tk : Toolkit) (current : string) (error_message : pyval)
    (sessions : list (list event)) : script_outcome :=
  match sessions with
  | [] =>
      match loginbox tk (script_kwargs error_message) current [] with
      | Raised e => Script_raised e
      | _ => Script_waiting
      end
  | events :: sessions' =>
      match loginbox tk (script_kwargs error_message) current events with
      | Raised e => Script_raised e
      | Waiting => Script_waiting
      | Returned res =>
          if Nat.eqb (size res) 0 then Authentication_cancelled
          else if dict_get_is res "username" test_user
                  && dict_get_is res "password" test_password
          then Authentication_success
          else script_loop tk current (PyStr "Authentication failed") sessions'
      end
  end.

Definition script (tk : Toolkit) (current : string) (sessions : list (list event))
  : script_outcome :=
  script_loop tk current PyNone sessions.

(** ** More vocabulary *)

(** The keywords [Autobox.__init__] reads (lines 46-52). *)
Definition Autobox_keywords : list string :=
  ["title_string"; "header_string"; "fields"; "padding"; "error_message";
   "theme"; "ok_label"].

(** The widget an edit is made on, and the variable a widget is bound
    to. *)
Definition edit_target (e : edit) : nat :=
  match e with
  | Type_text w _ => w
  | Toggle w => w
  | Choose w _ => w
  end.

Definition bound_name (w : widget) : option string :=
  match w with
  | Combobox name _ _ => Some name
  | Checkbutton name => Some name
  | Entry name _ => Some name
  | _ => None
  end.

(** The variable the widget at position [w] of the grid is bound to. *)
Definition target_name (self : Autobox) (w : nat) : option string :=
  (p_widget <$> grid self !! w) ≫= bound_name.

(** The grid cell of a placed widget. *)
Definition position (p : placed) : nat * nat := (p_row p, p_column p).

(** Where the rows of the fields start in [grid]. *)
Definition rows_start (self : Autobox) : nat :=
  length (header_rows (header_string self) (error_message self)).


(** * Properties *)

(** ** The error monad and the table of variable classes *)

Lemma bind_Ok {A B} (r : result A) (k : A → result B) (b : B) :
  r ≫= k = Ok b ↔ ∃ a, r = Ok a ∧ k a = Ok b.
Proof.
  destruct r as [a|e]; simpl; split.
  - intros H. by exists a.
  - by intros (a' & [= ->] & H).
  - intros H. discriminate H.
  - by intros (a' & [=] & _).
Qed.

Lemma variable_types_lookup (t : string) (vt : vartype) :
  variable_types !! t = Some vt ↔
    (t = "text" ∧ vt = StringVar) ∨ (t = "hidden_text" ∧ vt = StringVar) ∨
    (t = "checkbox" ∧ vt = BooleanVar) ∨ (t = "select" ∧ vt = StringVar).
Proof.
  unfold variable_types. rewrite !lookup_insert_Some, lookup_empty. split.
  - intros [[<- <-]|[_ [[<- <-]|[_ [[<- <-]|[_ [[<- <-]|[_ [=]]]]]]]]]; auto.
  - intros [[-> ->]|[[-> ->]|[[-> ->]|[-> ->]]]]; auto 10.
Qed.

Lemma variable_types_unknown (t : string) :
  t ≠ "text" → t ≠ "hidden_text" → t ≠ "checkbox" → t ≠ "select" →
  variable_types !! t = None.
Proof.
  intros. destruct (variable_types !! t) as [vt|] eqn:E; [|done].
  apply variable_types_lookup in E.
  destruct E as [[? _]|[[? _]|[[? _]|[? _]]]]; contradiction.
Qed.

(** Going back through the steps of a construction that succeeded. *)
Ltac init_inv H fs Hfs d Hd :=
  unfold Autobox_init in H;
  apply bind_Ok in H as ([] & ? & H);
  apply bind_Ok in H as (fs & Hfs & H);
  apply bind_Ok in H as (d & Hd & H);
  apply bind_Ok in H as ([] & ? & H);
  injection H as <-.

Section dialog.

Context (tk : Toolkit).

(** *** Creating the variables *)

Lemma create_variable_Ok (d d' : gmap string var) (f : field) :
  create_variable tk d f = Ok d' ↔
    ∃ vt c, variable_types !! field_type f = Some vt ∧
            var_set tk (new_var vt) (field_default f) = Ok c ∧
            d' = <[field_name f := c]> d.
Proof.
  unfold create_variable. rewrite bind_Ok. split.
  - intros (vt & Hvt & H). apply bind_Ok in H as (c & Hc & [= <-]).
    destruct (variable_types !! field_type f) as [vt'|]; [|discriminate Hvt].
    injection Hvt as ->. by exists vt, c.
  - intros (vt & c & -> & Hc & ->). exists vt. split; [done|].
    apply bind_Ok. by exists c.
Qed.

Lemma create_variables_app (fs1 fs2 : list field) (d : gmap string var) :
  create_variables tk (fs1 ++ fs2) d =
    create_variables tk fs1 d ≫= create_variables tk fs2.
Proof.
  revert d. induction fs1 as [|f fs1 IH]; intros d; simpl; [done|].
  destruct (create_variable tk d f) as [d1|e]; simpl; [apply IH|done].
Qed.

Lemma create_variables_dom (fs : list field) (d d' : gmap string var) :
  create_variables tk fs d = Ok d' →
  dom d' = dom d ∪ list_to_set (field_name <$> fs).
Proof.
  revert d. induction fs as [|f fs IH]; intros d; simpl.
  - intros [= ->]. simpl. by rewrite (right_id_L ∅ (∪)).
  - intros H. apply bind_Ok in H as (d1 & H1 & H2).
    apply create_variable_Ok in H1 as (vt & c & _ & _ & ->).
    rewrite (IH _ H2), dom_insert_L. simpl.
    rewrite (comm_L (∪) {[field_name f]} (dom d)). by rewrite (assoc_L (∪)).
Qed.

(** A name that no field of the list bears keeps its variable. *)
Lemma create_variables_other (fs : list field) (d d' : gmap string var) (k : string) :
  create_variables tk fs d = Ok d' →
  k ∉ field_name <$> fs →
  d' !! k = d !! k.
Proof.
  revert d. induction fs as [|f fs IH]; intros d; simpl.
  - by intros [= ->].
  - intros H Hk. apply bind_Ok in H as (d1 & H1 & H2).
    apply create_variable_Ok in H1 as (vt & c & _ & _ & ->).
    apply not_elem_of_cons in Hk as [Hne Hk].
    rewrite (IH _ H2) by done. by apply lookup_insert_ne.
Qed.

(** Every field of the list got through lines 73 and 74. *)
Lemma create_variables_each (fs : list field) (d d' : gmap string var) (f : field) :
  create_variables tk fs d = Ok d' →
  f ∈ fs →
  ∃ vt c, variable_types !! field_type f = Some vt ∧
          var_set tk (new_var vt) (field_default f) = Ok c.
Proof.
  revert d. induction fs as [|g fs IH]; intros d; simpl.
  - intros _ Hf. by apply elem_of_nil in Hf.
  - intros H Hf. apply bind_Ok in H as (d1 & H1 & H2).
    apply elem_of_cons in Hf as [->|Hf]; [|by eapply IH].
    apply create_variable_Ok in H1 as (vt & c & ? & ? & _). by exists vt, c.
Qed.

(** The variable found under a name is the one made for the last field
    that bears it. *)
Lemma create_variables_last (fs1 fs2 : list field) (f : field)
    (d d' : gmap string var) :
  create_variables tk (fs1 ++ f :: fs2) d = Ok d' →
  field_name f ∉ field_name <$> fs2 →
  ∃ vt c, variable_types !! field_type f = Some vt ∧
          var_set tk (new_var vt) (field_default f) = Ok c ∧
          d' !! field_name f = Some c.
Proof.
  rewrite create_variables_app, bind_Ok. intros (d1 & _ & H) Hlast.
  simpl in H. apply bind_Ok in H as (d2 & H2 & H3).
  apply create_variable_Ok in H2 as (vt & c & Hvt & Hc & ->).
  exists vt, c. split_and!; [done..|].
  rewrite (create_variables_other _ _ _ _ H3 Hlast). apply lookup_insert_eq.
Qed.

(** *** What [__init__] leaves behind *)

Lemma Autobox_init_Ok (kwargs : gmap string pyval) (current : string) (self : Autobox) :
  Autobox_init tk kwargs current = Ok self →
  ∃ fs, iter_fields (fields_arg kwargs) = Ok fs ∧
    fields self = List.filter has_name fs ∧
    create_variables tk (fields self) ∅ = Ok (data self) ∧
    theme self = kwargs_get kwargs "theme" PyNone ∧
    theme_in_use self = set_theme tk (theme self) current ∧
    widgets self = build_widgets (fields self) ∅ ∧
    ok_button self = Button (ok_label self) Cb_ok_clicked ∧
    cancel_button self = Button (PyStr "Cancel") Cb_cancel_clicked ∧
    grid self =
      (header_rows (header_string self) (error_message self)
       ++ build_rows 0 (fields self)
       ++ footer_rows (ok_button self) (cancel_button self))%list ∧
    bindings self !! "<Return>" = Some Cb_ok_clicked ∧
    bindings self !! "<Escape>" = Some Cb_cancel_clicked.
Proof.
  unfold fields_arg. intros H. init_inv H fs Hfs d Hd.
  exists fs. simpl. split_and!; done.
Qed.

(** *** Reading the variables *)

Lemma ok_clicked_spec (self : Autobox) :
  match ok_clicked tk self with
  | Ok r => reads tk (data self) r
  | Err e => ∃ k c, data self !! k = Some c ∧ var_get tk c = Err e
  end.
Proof.
  unfold ok_clicked.
  apply (map_fold_weak_ind
    (λ (acc : result (gmap string pyval)) (d : gmap string var),
       match acc with
       | Ok r => reads tk d r
       | Err e => ∃ k c, d !! k = Some c ∧ var_get tk c = Err e
       end)).
  - intros k. by rewrite !lookup_empty.
  - intros i c d [r|e] Hi IH; simpl.
    + destruct (var_get tk c) as [v|e] eqn:Hv; simpl.
      * intros k. destruct (decide (k = i)) as [->|Hne].
        -- rewrite !lookup_insert_eq. by exists v.
        -- rewrite !lookup_insert_ne by done. apply IH.
      * exists i, c. by rewrite lookup_insert_eq.
    + destruct IH as (k & c' & Hk & Hc'). exists k, c'. split; [|done].
      rewrite lookup_insert_ne; [done|]. intros ->. congruence.
Qed.

Lemma ok_clicked_reads (self : Autobox) (r : gmap string pyval) :
  ok_clicked tk self = Ok r → reads tk (data self) r.
Proof. intros H. pose proof (ok_clicked_spec self) as Hs. by rewrite H in Hs. Qed.

Lemma reads_dom (d : gmap string var) (r : gmap string pyval) :
  reads tk d r → dom r = dom d.
Proof.
  intros H. apply set_eq. intros k. rewrite !elem_of_dom.
  specialize (H k). destruct (d !! k) as [c|].
  - destruct H as (v & _ & ->). split; eauto.
  - rewrite H. split; intros [? [=]].
Qed.

(** Committing succeeds as soon as every variable can be read. *)
Lemma ok_clicked_total (self : Autobox) :
  (∀ k c, data self !! k = Some c → ∃ v, var_get tk c = Ok v) →
  ∃ r, ok_clicked tk self = Ok r.
Proof.
  intros H. pose proof (ok_clicked_spec self) as Hs.
  destruct (ok_clicked tk self) as [r|e]; [by exists r|].
  destruct Hs as (k & c & Hk & He). destruct (H k c Hk) as [v Hv]. congruence.
Qed.

(** *** Edits *)

Lemma same_form_refl (a : Autobox) : same_form a a.
Proof. by repeat split. Qed.

Lemma same_form_trans (a b c : Autobox) :
  same_form a b → same_form b c → same_form a c.
Proof.
  intros (?&?&?&?&?&Hab) (?&?&?&?&?&Hbc).
  unfold same_form. split_and!; [congruence..|]. intros k. by rewrite Hab.
Qed.

Lemma write_var_same_form (name t : string) (self : Autobox) :
  same_form self (write_var name t self).
Proof.
  unfold same_form. split_and!; try done.
  intros k. simpl. destruct (decide (k = name)) as [->|Hne].
  - rewrite lookup_alter_eq. by destruct (data self !! name).
  - by rewrite lookup_alter_ne.
Qed.

Lemma user_edit_same_form (e : edit) (self : Autobox) :
  same_form self (user_edit e self).
Proof.
  destruct e as [w s|w|w i]; simpl;
    destruct (p_widget <$> grid self !! w)
      as [[txt st|name [vals|] st|name|name sh|txt cb]|];
    try apply same_form_refl; try apply write_var_same_form.
  - destruct (data self !! name);
      [apply write_var_same_form|apply same_form_refl].
  - destruct (vals !! i); [apply write_var_same_form|apply same_form_refl].
Qed.

Lemma user_edits_same_form (edits : list edit) (self : Autobox) :
  same_form self (user_edits edits self).
Proof.
  revert self. induction edits as [|e edits IH]; intros self; simpl.
  - apply same_form_refl.
  - eapply same_form_trans; [apply user_edit_same_form|apply IH].
Qed.

Lemma same_form_dom (a b : Autobox) : same_form a b → dom (data a) = dom (data b).
Proof.
  intros (_&_&_&_&_&H). apply set_eq. intros k. rewrite !elem_of_dom.
  specialize (H k). destruct (data a !! k), (data b !! k); try done.
  all: split; eauto.
Qed.

Lemma same_form_wired (a b : Autobox) : same_form a b → wired a → wired b.
Proof.
  intros (_&_&Hok&Hcancel&Hb&_) (?&?&?&?). unfold wired.
  by rewrite <- Hok, <- Hcancel, <- Hb.
Qed.

Lemma Autobox_init_wired (kwargs : gmap string pyval) (current : string)
    (self : Autobox) :
  Autobox_init tk kwargs current = Ok self → wired self.
Proof.
  intros H. apply Autobox_init_Ok in H as (fs&_&_&_&_&_&_&?&?&_&?&?).
  repeat split; eauto.
Qed.

(** *** The loop *)

Lemma mainloop_edits (self : Autobox) (edits : list edit) (events : list event) :
  mainloop tk self ((Edit <$> edits) ++ events)%list
  = mainloop tk (user_edits edits self) events.
Proof.
  revert self. induction edits as [|e edits IH]; intros self; simpl; [done|].
  apply IH.
Qed.

Lemma dispatch_commit (self : Autobox) (c : event) :
  wired self → c ∈ commits →
  dispatch tk c self = run_callback tk Cb_ok_clicked self.
Proof.
  intros ([l Hok]&_&Hret&_) Hc. unfold commits in Hc.
  apply elem_of_cons in Hc as [->|Hc]; [simpl; by rewrite Hok|].
  apply list_elem_of_singleton in Hc as ->. simpl. by rewrite Hret.
Qed.

Lemma dispatch_cancel (self : Autobox) (c : event) :
  wired self → c ∈ cancels →
  dispatch tk c self = Quit ∅.
Proof.
  intros (_&[l Hcancel]&_&Hesc) Hc. unfold cancels in Hc.
  apply elem_of_cons in Hc as [->|Hc]; [simpl; by rewrite Hcancel|].
  apply list_elem_of_singleton in Hc as ->. simpl. by rewrite Hesc.
Qed.

(** A commit ends the loop exactly when every variable can be read. *)
Lemma mainloop_commit (self : Autobox) (c : event) (r : gmap string pyval) :
  wired self → c ∈ commits →
  mainloop tk self [c] = Some (Quit_with r) ↔ ok_clicked tk self = Ok r.
Proof.
  intros Hw Hc. simpl. rewrite (dispatch_commit _ _ Hw Hc). simpl.
  destruct (ok_clicked tk self) as [r'|e]; split; congruence.
Qed.

End dialog.

(** ** Which fields are kept, and the keys of the result *)

Lemma has_name_spec (f : field) :
  has_name f = true ↔ ∃ k, f_name f = Some k ∧ k ≠ "".
Proof.
  unfold has_name. destruct (f_name f) as [s|]; simpl.
  - rewrite negb_true_iff, String.eqb_neq. split; [by exists s|].
    by intros (k & [= ->] & ?).
  - split; [done|]. by intros (k & [=] & _).
Qed.

Lemma elem_of_retained (f : field) (fs : list field) :
  f ∈ List.filter has_name fs ↔ f ∈ fs ∧ has_name f = true.
Proof. by rewrite !list_elem_of_In, filter_In. Qed.

(** C1. Building the dialog keeps exactly the field specs whose name is
    there and not empty; the rows of the form are built from those and no
    others; and the mapping a commit (OK button or Enter key) produces,
    after any edits, has as its keys exactly the names of the kept
    fields, so a spec without a name gives neither a row nor a key. *)
Theorem C1_result_keys (tk : Toolkit) (kwargs : gmap string pyval) (current : string)
    (fs : list field) (self : Autobox) (edits : list edit) (c : event)
    (r : gmap string pyval) :
  iter_fields (fields_arg kwargs) = Ok fs →
  Autobox_init tk kwargs current = Ok self →
  c ∈ commits →
  mainloop tk self ((Edit <$> edits) ++ [c])%list = Some (Quit_with r) →
  fields self = List.filter has_name fs ∧
  grid self = (header_rows (header_string self) (error_message self)
               ++ build_rows 0 (List.filter has_name fs)
               ++ footer_rows (ok_button self) (cancel_button self))%list ∧
  (∀ f, f ∈ fields self ↔ f ∈ fs ∧ ∃ k, f_name f = Some k ∧ k ≠ "") ∧
  (∀ k, k ∈ dom r ↔ ∃ f, f ∈ fs ∧ f_name f = Some k ∧ k ≠ "").
Proof.
  intros Hfs Hinit Hc Hloop.
  pose proof (Autobox_init_wired _ _ _ _ Hinit) as Hw.
  apply Autobox_init_Ok in Hinit as (fs'&Hfs'&Hfields&Hdata&_&_&_&_&_&Hgrid&_).
  assert (fs' = fs) as -> by congruence.
  rewrite mainloop_edits in Hloop.
  pose proof (user_edits_same_form edits self) as Hsame.
  apply mainloop_commit in Hloop; [|by eapply same_form_wired|done].
  apply ok_clicked_reads, reads_dom in Hloop.
  rewrite <- (same_form_dom _ _ Hsame) in Hloop.
  rewrite (create_variables_dom _ _ _ _ Hdata), dom_empty_L, (left_id_L ∅ (∪)) in Hloop.
  split_and!.
  - done.
  - by rewrite Hgrid, Hfields.
  - intros f. by rewrite Hfields, elem_of_retained, has_name_spec.
  - intros k. rewrite Hloop, elem_of_list_to_set, list_elem_of_fmap. split.
    + intros (f & -> & Hf). rewrite Hfields, elem_of_retained in Hf.
      destruct Hf as [Hf Hn]. apply has_name_spec in Hn as (k & Hk & Hne).
      exists f. unfold field_name. rewrite Hk. by simpl.
    + intros (f & Hf & Hk & Hne). exists f. split.
      * unfold field_name. by rewrite Hk.
      * rewrite Hfields, elem_of_retained, has_name_spec. eauto.
Qed.

Lemma C1_result_keys_witness :
  ∃ self r,
    Autobox_init tkinter (kw [("fields", PyList ex_fields)]) "default" = Ok self ∧
    mainloop tkinter self ((Edit <$> [Type_text 2 "alice"; Toggle 4]) ++ [Key "<Return>"])%list
      = Some (Quit_with r) ∧
    length (fields self) = 3 ∧
    (∀ k, k ∈ dom r ↔ ∃ f, f ∈ ex_fields ∧ f_name f = Some k ∧ k ≠ "").
Proof.
  eexists _, _. split; [vm_compute; reflexivity|].
  split; [vm_compute; reflexivity|].
  split; [reflexivity|].
  eapply (C1_result_keys tkinter (kw [("fields", PyList ex_fields)]) "default"
            ex_fields _ [Type_text 2 "alice"; Toggle 4] (Key "<Return>")).
  - reflexivity.
  - vm_compute; reflexivity.
  - unfold commits. apply list_elem_of_In. simpl. tauto.
  - vm_compute; reflexivity.
Defined.

(** ** Cancelling *)

(** C2. Whatever the dialog and whatever the user edited before, a click
    on Cancel or the Escape key ends the loop with the empty mapping, and
    that is what [autobox] returns. *)
Theorem C2_cancel_empty (tk : Toolkit) (kwargs : gmap string pyval) (current : string)
    (self : Autobox) (edits : list edit) (c : event) (rest : list event) :
  Autobox_init tk kwargs current = Ok self →
  c ∈ cancels →
  mainloop tk self ((Edit <$> edits) ++ c :: rest)%list = Some (Quit_with ∅) ∧
  autobox tk kwargs current ((Edit <$> edits) ++ c :: rest)%list = Returned ∅.
Proof.
  intros Hinit Hc.
  assert (mainloop tk self ((Edit <$> edits) ++ c :: rest)%list = Some (Quit_with ∅)) as Hloop.
  { rewrite mainloop_edits. simpl. rewrite dispatch_cancel; [done| |done].
    eapply same_form_wired; [apply user_edits_same_form|].
    by eapply Autobox_init_wired. }
  split; [done|]. unfold autobox. by rewrite Hinit, Hloop.
Qed.

Lemma C2_cancel_empty_witness :
  ∃ self,
    Autobox_init tkinter (kw [("fields", PyList ex_fields)]) "default" = Ok self ∧
    Key "<Escape>" ∈ cancels ∧
    autobox tkinter (kw [("fields", PyList ex_fields)]) "default"
      ((Edit <$> [Type_text 2 "alice"; Choose 6 1]) ++ Key "<Escape>" :: [])%list
    = Returned ∅.
Proof.
  assert (Key "<Escape>" ∈ cancels) as Hc.
  { unfold cancels. apply list_elem_of_In. simpl. tauto. }
  eexists. split; [vm_compute; reflexivity|]. split; [exact Hc|].
  eapply (C2_cancel_empty tkinter (kw [("fields", PyList ex_fields)]) "default" _
            [Type_text 2 "alice"; Choose 6 1] (Key "<Escape>") []).
  - vm_compute; reflexivity.
  - exact Hc.
Defined.

(** ** The theme *)

Lemma set_theme_known (tk : Toolkit) (t current : string) :
  t ∈ theme_names tk → set_theme tk (PyStr t) current = t.
Proof. intros H. unfold set_theme, theme_known. by rewrite bool_decide_eq_true_2. Qed.

Lemma set_theme_unknown (tk : Toolkit) (v : pyval) (current : string) :
  (∀ t, v = PyStr t → t ∉ theme_names tk) → set_theme tk v current = current.
Proof.
  intros H. destruct v as [| | |t|]; try done.
  unfold set_theme, theme_known. rewrite bool_decide_eq_false_2; [done|]. by apply H.
Qed.

Lemma kwargs_get_insert_ne (kwargs : gmap string pyval) (k k' : string) (v d : pyval) :
  k ≠ k' → kwargs_get (<[k := v]> kwargs) k' d = kwargs_get kwargs k' d.
Proof. intros H. unfold kwargs_get. by rewrite lookup_insert_ne. Qed.

Lemma kwargs_get_delete_ne (kwargs : gmap string pyval) (k k' : string) (d : pyval) :
  k ≠ k' → kwargs_get (delete k kwargs) k' d = kwargs_get kwargs k' d.
Proof. intros H. unfold kwargs_get. by rewrite lookup_delete_ne. Qed.

(** Construction fails only on the field list. *)
Lemma Autobox_init_raises (tk : Toolkit) (kwargs : gmap string pyval) (current : string) :
  raises (Autobox_init tk kwargs current)
  = raises (bind_self kwargs ≫= λ _,
            iter_fields (fields_arg kwargs) ≫= λ fs,
            create_variables tk (List.filter has_name fs) ∅ ≫= λ _,
            if uses_padding (kwargs_get kwargs "error_message" PyNone)
                            (List.filter has_name fs)
            then grid_padding tk (kwargs_get kwargs "padding" (PyInt 5))
            else Ok ()).
Proof.
  unfold Autobox_init, fields_arg.
  destruct (bind_self kwargs) as [[]|e]; simpl; [|done].
  destruct (iter_fields _) as [fs|e]; simpl; [|done].
  destruct (create_variables tk _ ∅); simpl; [|done].
  by destruct (if uses_padding _ _ then _ else _) as [[]|e].
Qed.

(** C5. The theme given at construction is put to use only when it is
    one of the toolkit's theme names.  Any other value changes nothing:
    the theme that was in use stays in use, and construction raises
    exactly what it raises when no theme is given at all (nothing, when
    the rest is in order). *)
Theorem C5_theme (tk : Toolkit) (kwargs : gmap string pyval) (current : string)
    (v : pyval) :
  raises (Autobox_init tk (<["theme" := v]> kwargs) current)
  = raises (Autobox_init tk (delete "theme" kwargs) current) ∧
  ∀ self, Autobox_init tk (<["theme" := v]> kwargs) current = Ok self →
    (∀ t, v = PyStr t → t ∈ theme_names tk → theme_in_use self = t) ∧
    ((∀ t, v = PyStr t → t ∉ theme_names tk) → theme_in_use self = current).
Proof.
  split.
  - rewrite !Autobox_init_raises. unfold fields_arg, bind_self.
    rewrite lookup_insert_ne, lookup_delete_ne by done.
    by rewrite !kwargs_get_insert_ne, !kwargs_get_delete_ne.
  - intros self H.
    apply Autobox_init_Ok in H as (_&_&_&_&Htheme&Huse&_).
    unfold kwargs_get in Htheme. rewrite lookup_insert_eq in Htheme. simpl in Htheme.
    rewrite Huse, Htheme. split.
    + intros t -> Ht. by apply set_theme_known.
    + apply set_theme_unknown.
Qed.

Lemma C5_theme_witness :
  ∃ a b,
    Autobox_init tkinter (<["theme" := PyStr "alt"]> (kw [("fields", PyList ex_fields)]))
      "default" = Ok a ∧
    Autobox_init tkinter (<["theme" := PyStr "aqua"]> (kw [("fields", PyList ex_fields)]))
      "default" = Ok b ∧
    theme_in_use a = "alt" ∧ theme_in_use b = "default".
Proof.
  eexists _, _. split; [vm_compute; reflexivity|]. split; [vm_compute; reflexivity|].
  split.
  - eapply (proj2 (C5_theme tkinter (kw [("fields", PyList ex_fields)]) "default"
                     (PyStr "alt"))).
    + vm_compute; reflexivity.
    + reflexivity.
    + apply list_elem_of_In. simpl. tauto.
  - eapply (proj2 (C5_theme tkinter (kw [("fields", PyList ex_fields)]) "default"
                     (PyStr "aqua"))).
    + vm_compute; reflexivity.
    + intros t [= <-] Ht. apply list_elem_of_In in Ht. simpl in Ht.
      destruct Ht as [?|[?|[?|[?|[]]]]]; discriminate.
Defined.

(** ** Duplicate names *)

Lemma var_set_type (tk : Toolkit) (vt : vartype) (v : pyval) (c : var) :
  var_set tk (new_var vt) v = Ok c → var_type c = vt.
Proof.
  unfold var_set. destruct vt; simpl.
  - by intros [= <-].
  - destruct (BooleanVar_set tk v); [by intros [= <-]|done].
Qed.

(** C6. When two of the kept specs bear the same name, the variable made
    for the earlier one is replaced: under that name the dialog holds the
    variable made from the type and the default of the last spec bearing
    it, and a commit maps the name to the value of that variable: the
    default of the last spec as a string when that spec is no checkbox,
    and the boolean its default is read as when it is. *)
Theorem C6_last_spec_wins (tk : Toolkit) (kwargs : gmap string pyval) (current : string)
    (self : Autobox) (fs0 fs1 fs2 : list field) (g f : field) (c : event)
    (r : gmap string pyval) :
  Autobox_init tk kwargs current = Ok self →
  fields self = (fs0 ++ g :: fs1 ++ f :: fs2)%list →
  field_name g = field_name f →
  field_name f ∉ field_name <$> fs2 →
  c ∈ commits →
  mainloop tk self [c] = Some (Quit_with r) →
  ∃ vt cell v,
    variable_types !! field_type f = Some vt ∧
    var_set tk (new_var vt) (field_default f) = Ok cell ∧
    data self !! field_name g = Some cell ∧
    var_get tk cell = Ok v ∧
    r !! field_name g = Some v ∧
    (field_type f ≠ "checkbox" →
       cell = Var StringVar (tcl_str tk (field_default f)) ∧
       v = PyStr (tcl_str tk (field_default f))) ∧
    (field_type f = "checkbox" →
       ∃ t b, BooleanVar_set tk (field_default f) = Some t ∧
              cell = Var BooleanVar t ∧
              getboolean tk t = Some b ∧ v = PyBool b).
Proof.
  intros Hinit Hfields Hname Hlast Hc Hloop.
  pose proof (Autobox_init_wired _ _ _ _ Hinit) as Hw.
  apply Autobox_init_Ok in Hinit as (fs&_&_&Hdata&_).
  rewrite Hfields in Hdata.
  replace (fs0 ++ g :: fs1 ++ f :: fs2)%list
    with ((fs0 ++ g :: fs1) ++ f :: fs2)%list in Hdata
    by (by rewrite <- app_assoc).
  apply create_variables_last in Hdata as (vt & cell & Hvt & Hset & Hcell); [|done].
  apply mainloop_commit in Hloop; [|done..].
  apply ok_clicked_reads in Hloop. specialize (Hloop (field_name f)).
  rewrite Hcell in Hloop. destruct Hloop as (v & Hv & Hr).
  exists vt, cell, v. rewrite Hname. split_and!; try done.
  - intros Hty. apply variable_types_lookup in Hvt.
    assert (vt = StringVar) as ->
      by (destruct Hvt as [[_ ?]|[[_ ?]|[[? _]|[_ ?]]]]; done).
    injection Hset as <-. split; [done|]. by injection Hv as <-.
  - intros Hty. rewrite Hty in Hvt. apply variable_types_lookup in Hvt.
    destruct Hvt as [[[=] _]|[[[=] _]|[[_ ->]|[[=] _]]]].
    unfold var_set in Hset. simpl in Hset.
    destruct (BooleanVar_set tk (field_default f)) as [t|] eqn:Ht; [|done].
    injection Hset as <-. unfold var_get in Hv. simpl in Hv.
    destruct (getboolean tk t) as [b|] eqn:Hb; [|done]. injection Hv as <-.
    by exists t, b.
Qed.

Lemma C6_last_spec_wins_witness :
  let first := Field (Some "x") None (Some "checkbox") (Some (PyBool true)) None in
  let second := Field (Some "x") None (Some "text") (Some (PyStr "late")) None in
  ∃ self r,
    Autobox_init tkinter (kw [("fields", PyList [first; second])]) "default" = Ok self ∧
    mainloop tkinter self [Click Ok_button] = Some (Quit_with r) ∧
    data self !! "x" = Some (Var StringVar "late") ∧
    r !! "x" = Some (PyStr "late").
Proof.
  intros first second.
  eexists _, _.
  match goal with |- ?A ∧ _ => assert A as Hinit by (vm_compute; reflexivity) end.
  split; [exact Hinit|].
  match goal with |- ?A ∧ _ => assert A as Hloop by (vm_compute; reflexivity) end.
  split; [exact Hloop|].
  destruct (C6_last_spec_wins tkinter (kw [("fields", PyList [first; second])])
              "default" _ [] [] [] first second (Click Ok_button) _
              Hinit eq_refl eq_refl (not_elem_of_nil _)
              ltac:(apply list_elem_of_In; simpl; tauto) Hloop)
    as (vt & cell & v & _ & _ & Hcell & _ & Hr & Hstr & _).
  destruct Hstr as [-> ->]; [discriminate|].
  split; [exact Hcell|exact Hr].
Defined.

(** The sample dialog with a name borne twice commits the later spec's
    value. *)
Example duplicate_name_commit :
  autobox tkinter
    (kw [("fields", PyList [Field (Some "x") None (Some "checkbox") (Some (PyBool true)) None;
                            Field (Some "x") None (Some "text") (Some (PyStr "late")) None])])
    "default" [Click Ok_button]
  = Returned {[ "x" := PyStr "late" ]}.
Proof. vm_compute; reflexivity. Qed.

(** ** The widget of each kind *)

Lemma build_rows_lookup (fs : list field) (m n : nat) (f : field) :
  fs !! n = Some f →
  build_rows m fs !! (n + n) = Some (Placed (m + n + 2) 0 (Label (PyStr (field_label f)) None)) ∧
  build_rows m fs !! S (n + n) = Some (Placed (m + n + 2) 1 (field_widget f)).
Proof.
  revert m n. induction fs as [|g fs IH]; intros m n Hn; [done|].
  destruct n as [|n]; simpl in Hn.
  - injection Hn as ->. simpl. by rewrite Nat.add_0_r.
  - destruct (IH (S m) n Hn) as [H0 H1]. rewrite Nat.add_succ_r.
    simpl. simpl in H0, H1.
    replace (m + S n + 2) with (S (m + n + 2)) by lia. done.
Qed.

Lemma build_widgets_other (fs : list field) (ws : gmap string widget) (k : string) :
  k ∉ field_name <$> fs → build_widgets fs ws !! k = ws !! k.
Proof.
  revert ws. induction fs as [|f fs IH]; intros ws Hk; simpl; [done|].
  apply not_elem_of_cons in Hk as [Hne Hk].
  rewrite IH by done. by apply lookup_insert_ne.
Qed.

Lemma build_widgets_last (fs1 fs2 : list field) (f : field) (ws : gmap string widget) :
  field_name f ∉ field_name <$> fs2 →
  build_widgets (fs1 ++ f :: fs2) ws !! field_name f = Some (field_widget f).
Proof.
  revert ws. induction fs1 as [|g fs1 IH]; intros ws Hk; simpl.
  - rewrite build_widgets_other by done. apply lookup_insert_eq.
  - by apply IH.
Qed.

(** The last spec of a list that bears a given name. *)
Lemma last_bearing (fs : list field) (k : string) :
  k ∈ field_name <$> fs →
  ∃ fs1 g fs2, fs = (fs1 ++ g :: fs2)%list ∧ field_name g = k ∧
               k ∉ field_name <$> fs2.
Proof.
  induction fs as [|h fs IH]; simpl.
  - intros H. by apply elem_of_nil in H.
  - intros H. destruct (decide (k ∈ field_name <$> fs)) as [Hin|Hout].
    + destruct (IH Hin) as (fs1 & g & fs2 & -> & Hg & Hlast).
      by exists (h :: fs1), g, fs2.
    + apply elem_of_cons in H as [->|H]; [|done].
      by exists [], h, fs.
Qed.

(** The four documented types, and the widget each one gets. *)
Lemma field_widget_cases (f : field) (vt : vartype) :
  variable_types !! field_type f = Some vt →
  (f_type f = None ∧ vt = StringVar ∧ field_widget f = Entry (field_name f) None) ∨
  (f_type f = Some "text" ∧ vt = StringVar ∧
     field_widget f = Entry (field_name f) None) ∨
  (f_type f = Some "hidden_text" ∧ vt = StringVar ∧
     field_widget f = Entry (field_name f) (Some "*")) ∨
  (f_type f = Some "checkbox" ∧ vt = BooleanVar ∧
     field_widget f = Checkbutton (field_name f)) ∨
  (f_type f = Some "select" ∧ vt = StringVar ∧
     field_widget f = Combobox (field_name f) (f_options f) "readonly").
Proof.
  intros H. apply variable_types_lookup in H. unfold field_widget.
  unfold field_type in *. destruct (f_type f) as [t|]; simpl in *.
  - destruct H as [[-> ->]|[[-> ->]|[[-> ->]|[-> ->]]]]; simpl; auto 10.
  - destruct H as [[_ ->]|[[[=] _]|[[[=] _]|[[=] _]]]]. auto.
Qed.

(** C7, as the code has it.  The input widget of every kept field
    follows from its kind: a plain single-line entry for text and for a
    field without a type key, an entry showing asterisks for
    hidden_text, a check button for checkbox, a read-only drop-down list
    over the options for select.  It sits in column 1 of the field's row
    and is bound to the variable stored under the field's name.  That
    variable was made for the last kept field bearing the name: it is a
    boolean variable if that field is a checkbox and a string variable
    otherwise, so it fits the widget's own kind when no later field
    bears the name, and need not when one does. *)
Theorem C7_widget_by_kind (tk : Toolkit) (kwargs : gmap string pyval) (current : string)
    (self : Autobox) (n : nat) (f : field) :
  Autobox_init tk kwargs current = Ok self →
  fields self !! n = Some f →
  grid self !! (length (header_rows (header_string self) (error_message self))
                + (2 * n + 1))
    = Some (Placed (n + 2) 1 (field_widget f)) ∧
  bound_name (field_widget f) = Some (field_name f) ∧
  ((f_type f = None ∧ field_widget f = Entry (field_name f) None) ∨
   (f_type f = Some "text" ∧ field_widget f = Entry (field_name f) None) ∨
   (f_type f = Some "hidden_text" ∧ field_widget f = Entry (field_name f) (Some "*")) ∨
   (f_type f = Some "checkbox" ∧ field_widget f = Checkbutton (field_name f)) ∨
   (f_type f = Some "select" ∧
      field_widget f = Combobox (field_name f) (f_options f) "readonly")) ∧
  ∃ fs1 g fs2 cell,
    fields self = (fs1 ++ g :: fs2)%list ∧
    field_name g = field_name f ∧
    (field_name f ∉ field_name <$> fs2) ∧
    data self !! field_name f = Some cell ∧
    var_type cell = (if String.eqb (field_type g) "checkbox"
                     then BooleanVar else StringVar) ∧
    widgets self !! field_name f = Some (field_widget g) ∧
    (field_name f ∉ field_name <$> drop (S n) (fields self) → g = f).
Proof.
  intros Hinit Hn.
  apply Autobox_init_Ok in Hinit as (fs&_&_&Hdata&_&_&Hwidgets&_&_&Hgrid&_).
  pose proof (take_drop_middle _ _ _ Hn) as Hsplit.
  assert (f ∈ fields self) as Hf by (by eapply list_elem_of_lookup_2).
  split_and!.
  - destruct (build_rows_lookup _ 0 _ _ Hn) as [_ Hrow].
    replace (2 * n + 1) with (S (n + n)) by lia.
    rewrite Hgrid, lookup_app_r by lia.
    replace (_ + S (n + n) - _) with (S (n + n)) by lia.
    rewrite lookup_app_l; [done|]. apply lookup_lt_is_Some. eauto.
  - unfold field_widget.
    destruct (String.eqb (field_type f) "select"); [done|].
    destruct (String.eqb (field_type f) "checkbox"); [done|].
    by destruct (String.eqb (field_type f) "hidden_text").
  - destruct (create_variables_each _ _ _ _ _ Hdata Hf) as (vt & c & Hvt & _).
    destruct (field_widget_cases _ _ Hvt) as [H|[H|[H|[H|H]]]];
      destruct H as (? & _ & ?); auto 10.
  - assert (∃ fs1 g fs2, fields self = (fs1 ++ g :: fs2)%list ∧
              field_name g = field_name f ∧ (field_name f ∉ field_name <$> fs2) ∧
              (field_name f ∉ field_name <$> drop (S n) (fields self) → g = f))
      as (fs1 & g & fs2 & Hfs & Hg & Hlast & Hown).
    { destruct (decide (field_name f ∈ field_name <$> drop (S n) (fields self)))
        as [Hin|Hout].
      - destruct (last_bearing _ _ Hin) as (l1 & g & l2 & Hl & Hg & Hlast).
        exists (take n (fields self) ++ f :: l1)%list, g, l2. split_and!; try done.
        by rewrite <- Hsplit at 1; rewrite Hl, <- app_assoc.
      - by exists (take n (fields self)), f, (drop (S n) (fields self)). }
    rewrite Hfs in Hdata.
    apply create_variables_last in Hdata as (vt & cell & Hvt & Hset & Hcell);
      [|by rewrite Hg].
    exists fs1, g, fs2, cell. rewrite Hg in Hcell. split_and!; try done.
    + rewrite (var_set_type _ _ _ _ Hset).
      apply variable_types_lookup in Hvt.
      destruct Hvt as [[-> ->]|[[-> ->]|[[-> ->]|[-> ->]]]]; reflexivity.
    + rewrite Hwidgets, Hfs, <- Hg. apply build_widgets_last. by rewrite Hg.
Qed.

Lemma C7_widget_by_kind_witness :
  ∃ self,
    Autobox_init tkinter (kw [("fields", PyList ex_fields)]) "default" = Ok self ∧
    fields self !! 2 = Some (Field (Some "role") None (Some "select")
                                   (Some (PyStr "A")) (Some ["A"; "B"])) ∧
    grid self !! 6 = Some (Placed 4 1 (Combobox "role" (Some ["A"; "B"]) "readonly")) ∧
    widgets self !! "role" = Some (Combobox "role" (Some ["A"; "B"]) "readonly") ∧
    ∃ cell, data self !! "role" = Some cell ∧ var_type cell = StringVar.
Proof.
  eexists. split; [vm_compute; reflexivity|]. split; [reflexivity|].
  destruct (C7_widget_by_kind tkinter (kw [("fields", PyList ex_fields)]) "default" _ 2
              (Field (Some "role") None (Some "select") (Some (PyStr "A"))
                     (Some ["A"; "B"]))
              ltac:(vm_compute; reflexivity) eq_refl)
    as (Hgrid & _ & _ & fs1 & g & fs2 & cell & _ & _ & _ & Hcell & Hty & Hw & Hown).
  rewrite (Hown (not_elem_of_nil _)) in Hty, Hw.
  split; [exact Hgrid|]. split; [exact Hw|]. by exists cell.
Defined.

(** Against C7 as first stated: with a checkbox named x followed by a
    text field of the same name, the check button of the first is bound
    to the variable under x, which is the string variable made for the
    second. *)
Lemma C7_check_button_on_string_variable :
  ∃ self cell,
    Autobox_init tkinter
      (kw [("fields",
            PyList [Field (Some "x") None (Some "checkbox") (Some (PyBool false)) None;
                    Field (Some "x") None (Some "text") None None])])
      "default" = Ok self ∧
    grid self !! 2 = Some (Placed 2 1 (Checkbutton "x")) ∧
    data self !! "x" = Some cell ∧
    var_type cell = StringVar ∧
    var_type cell ≠ BooleanVar.
Proof.
  eexists _, _. split; [vm_compute; reflexivity|].
  split; [vm_compute; reflexivity|]. split; [vm_compute; reflexivity|].
  split; [reflexivity|discriminate].
Qed.

(** ** An unknown type *)

Lemma create_variables_Err_first (tk : Toolkit) (fs1 fs2 : list field) (f : field)
    (d d1 : gmap string var) (e : exn) :
  create_variables tk fs1 d = Ok d1 →
  create_variable tk d1 f = Err e →
  create_variables tk (fs1 ++ f :: fs2) d = Err e.
Proof.
  intros H1 Hf. rewrite create_variables_app, H1. simpl. by rewrite Hf.
Qed.

(** C10. A kept field whose type key is there but is none of text,
    hidden_text, checkbox and select makes the lookup in
    [variable_types] raise [KeyError]: construction never yields a
    dialog, and the exception it ends with is that [KeyError] as soon as
    the constructor was entered (no keyword is named self) and the
    fields before it got their variables.  A field without a type key,
    and only such a field, is given the type text. *)
Theorem C10_unknown_type (tk : Toolkit) (kwargs : gmap string pyval) (current : string)
    (fs fs1 fs2 : list field) (f : field) (t : string) :
  iter_fields (fields_arg kwargs) = Ok fs →
  List.filter has_name fs = (fs1 ++ f :: fs2)%list →
  f_type f = Some t →
  t ∉ ["text"; "hidden_text"; "checkbox"; "select"] →
  (∀ d, create_variable tk d f = Err (KeyError t)) ∧
  (∃ e, Autobox_init tk kwargs current = Err e) ∧
  (∀ d1, kwargs !! "self" = None →
         create_variables tk fs1 ∅ = Ok d1 →
         Autobox_init tk kwargs current = Err (KeyError t)) ∧
  (∀ g, f_type g = None → field_type g = "text" ∧
        variable_types !! field_type g = Some StringVar).
Proof.
  intros Hfs Hsplit Ht Hunknown.
  assert (variable_types !! field_type f = None) as Hvt.
  { unfold field_type. rewrite Ht. simpl.
    apply variable_types_unknown; intros ->; apply Hunknown;
      apply list_elem_of_In; simpl; tauto. }
  assert (∀ d, create_variable tk d f = Err (KeyError t)) as Hf.
  { intros d. unfold create_variable. rewrite Hvt. simpl.
    unfold field_type. by rewrite Ht. }
  assert (∀ d, ∃ e, create_variables tk (fs1 ++ f :: fs2) d = Err e) as Hall.
  { intros d. rewrite create_variables_app.
    destruct (create_variables tk fs1 d) as [d1|e]; simpl; [|by exists e].
    rewrite Hf. simpl. by exists (KeyError t). }
  split_and!.
  - exact Hf.
  - unfold Autobox_init. fold (fields_arg kwargs).
    destruct (bind_self kwargs) as [[]|e0]; simpl; [|by exists e0].
    rewrite Hfs. simpl.
    rewrite Hsplit. destruct (Hall ∅) as [e ->]. by exists e.
  - intros d1 Hself H1. unfold Autobox_init, bind_self. rewrite Hself. simpl.
    fold (fields_arg kwargs). rewrite Hfs. simpl.
    rewrite Hsplit. by rewrite (create_variables_Err_first _ _ _ _ _ _ _ H1 (Hf d1)).
  - intros g Hg. unfold field_type. rewrite Hg. simpl. split; [done|].
    apply variable_types_lookup. auto.
Qed.

Lemma C10_unknown_type_witness :
  let odd := Field (Some "age") None (Some "number") None None in
  let plain := Field (Some "nick") None None None None in
  Autobox_init tkinter (kw [("fields", PyList [plain; odd])]) "default"
    = Err (KeyError "number") ∧
  (∃ self, Autobox_init tkinter (kw [("fields", PyList [plain])]) "default" = Ok self).
Proof.
  intros odd plain. split.
  - eapply (C10_unknown_type tkinter (kw [("fields", PyList [plain; odd])]) "default"
              [plain; odd] [plain] [] odd "number").
    + reflexivity.
    + reflexivity.
    + reflexivity.
    + intros H. apply list_elem_of_In in H. simpl in H.
      destruct H as [?|[?|[?|[?|[]]]]]; discriminate.
    + reflexivity.
    + vm_compute; reflexivity.
  - eexists. vm_compute; reflexivity.
Defined.

(** ** The login box *)

Lemma get_and_pop_or_lookup (kwargs kwargs' : gmap string pyval) (k k' : string)
    (d v : pyval) :
  get_and_pop_or kwargs k d = (v, kwargs') → k ≠ k' → kwargs' !! k' = kwargs !! k'.
Proof.
  unfold get_and_pop_or. intros H Hne.
  destruct (kwargs !! k) as [x|]; [destruct (truthy x)|]; injection H as <- <-;
    try done. by apply lookup_delete_ne.
Qed.

Lemma call_keywords_clash (named : list (string * pyval)) (kwargs : gmap string pyval)
    (k : string) :
  k ∈ named.*1 → is_Some (kwargs !! k) → call_keywords named kwargs = Err TypeError.
Proof.
  intros Hk [x Hx]. unfold call_keywords.
  destruct (forallb _ named) eqn:E; [|done].
  rewrite forallb_forall in E. apply list_elem_of_fmap in Hk as ([k0 v] & -> & Hin).
  apply list_elem_of_In, E in Hin. simpl in Hin, Hx.
  apply bool_decide_eq_true in Hin. congruence.
Qed.

Lemma call_keywords_fresh (k1 k2 k3 : string) (v1 v2 v3 : pyval)
    (kwargs : gmap string pyval) :
  kwargs !! k1 = None → kwargs !! k2 = None → kwargs !! k3 = None →
  call_keywords [(k1, v1); (k2, v2); (k3, v3)] kwargs
  = Ok (<[k1 := v1]> (<[k2 := v2]> (<[k3 := v3]> kwargs))).
Proof.
  intros H1 H2 H3. unfold call_keywords. simpl.
  rewrite !bool_decide_eq_true_2 by done. simpl.
  by rewrite <- !insert_union_l, (left_id_L ∅ (∪)).
Qed.

(** C9. A call of [loginbox] with an [ok_label] or a [title_string]
    keyword raises [TypeError]: neither key is taken out of the keyword
    dictionary, and the call of [autobox] names both keywords and passes
    the dictionary along as well. *)
Theorem C9_duplicate_keyword (tk : Toolkit) (kwargs : gmap string pyval)
    (current : string) (events : list event) :
  is_Some (kwargs !! "ok_label") ∨ is_Some (kwargs !! "title_string") →
  loginbox tk kwargs current events = Raised TypeError.
Proof.
  intros Hk. unfold loginbox.
  destruct (get_and_pop_or kwargs "additional_fields" (PyList []))
    as [af kw1] eqn:E1.
  destruct (get_and_pop_or kw1 "default_username" (PyStr "")) as [du kw2] eqn:E2.
  destruct af as [| | | |extra]; try done. simpl.
  assert (∀ k, k ≠ "additional_fields" → k ≠ "default_username" →
               kw2 !! k = kwargs !! k) as Hsame.
  { intros k ? ?. rewrite (get_and_pop_or_lookup _ _ _ k _ _ E2) by done.
    by rewrite (get_and_pop_or_lookup _ _ _ k _ _ E1). }
  destruct Hk as [Hk|Hk].
  - rewrite (call_keywords_clash _ _ "ok_label"); [done| |by rewrite Hsame].
    apply list_elem_of_In. simpl. tauto.
  - rewrite (call_keywords_clash _ _ "title_string"); [done| |by rewrite Hsame].
    apply list_elem_of_In. simpl. tauto.
Qed.

Lemma C9_duplicate_keyword_witness :
  loginbox tkinter (kw [("header_string", PyStr "Log in to secure server");
                        ("title_string", PyStr "Login")])
    "default" [Click Ok_button]
  = Raised TypeError.
Proof.
  apply C9_duplicate_keyword. right. vm_compute. eauto.
Defined.

(** C8. [loginbox] puts two fields in front of the list the caller
    supplied, a username field of type text and then a password field of
    type hidden_text, and returns what [autobox] returns for that list,
    the OK label and the title, along with the keywords it did not take
    out.  The dialog [autobox] builds has the two fields first. *)
Theorem C8_loginbox_prepends (tk : Toolkit) (kwargs kw1 kw2 : gmap string pyval)
    (current : string) (events : list event) (extra : list field) (du : pyval) :
  get_and_pop_or kwargs "additional_fields" (PyList []) = (PyList extra, kw1) →
  get_and_pop_or kw1 "default_username" (PyStr "") = (du, kw2) →
  kwargs !! "fields" = None →
  kwargs !! "ok_label" = None →
  kwargs !! "title_string" = None →
  let passed :=
    <["fields" := PyList (default_fields du ++ extra)]>
      (<["ok_label" := PyStr "Log In"]>
        (<["title_string" := kwargs_get kwargs "title" (PyStr "Log In")]> kw2)) in
  loginbox tk kwargs current events = autobox tk passed current events ∧
  default_fields du =
    [Field (Some "username") (Some "Username: ") (Some "text") (Some du) None;
     Field (Some "password") (Some "Password: ") (Some "hidden_text") None None] ∧
  ∀ self, Autobox_init tk passed current = Ok self →
    fields self = (default_fields du ++ List.filter has_name extra)%list.
Proof.
  intros E1 E2 Hf Hok Ht passed.
  assert (∀ k, k ≠ "additional_fields" → k ≠ "default_username" →
               kw2 !! k = kwargs !! k) as Hsame.
  { intros k ? ?. rewrite (get_and_pop_or_lookup _ _ _ k _ _ E2) by done.
    by rewrite (get_and_pop_or_lookup _ _ _ k _ _ E1). }
  split_and!.
  - unfold loginbox. rewrite E1, E2. simpl.
    rewrite call_keywords_fresh by (by rewrite Hsame).
    unfold passed, kwargs_get.
    rewrite (get_and_pop_or_lookup _ _ _ "ok_label" _ _ E1), Hok by done.
    by rewrite (Hsame "title").
  - reflexivity.
  - intros self Hinit. apply Autobox_init_Ok in Hinit as (fs & Hfs & -> & _).
    unfold fields_arg, kwargs_get, passed in Hfs.
    rewrite lookup_insert_eq in Hfs. simpl in Hfs. injection Hfs as <-.
    reflexivity.
Qed.

Lemma C8_loginbox_prepends_witness :
  let extra := [Field (Some "domain") (Some "Login Domain: ") (Some "select")
                      (Some (PyStr "Local")) (Some ["Local"; "US.gov"; "RU.gov"])] in
  let kwargs := kw [("additional_fields", PyList extra);
                    ("default_username", PyStr "SomeUser");
                    ("header_string", PyStr "Log in to secure server")] in
  loginbox tkinter kwargs "default" [Edit (Type_text 4 "Password"); Key "<Return>"]
  = Returned (list_to_map [("username", PyStr "SomeUser");
                           ("password", PyStr "Password");
                           ("domain", PyStr "Local")]).
Proof.
  intros extra kwargs.
  destruct (C8_loginbox_prepends tkinter kwargs
              (kw [("default_username", PyStr "SomeUser");
                   ("header_string", PyStr "Log in to secure server")])
              (kw [("header_string", PyStr "Log in to secure server")])
              "default" [Edit (Type_text 4 "Password"); Key "<Return>"] extra
              (PyStr "SomeUser")) as (-> & _ & _).
  - vm_compute; reflexivity.
  - vm_compute; reflexivity.
  - vm_compute; reflexivity.
  - vm_compute; reflexivity.
  - vm_compute; reflexivity.
  - vm_compute; reflexivity.
Defined.

(** ** The values of a committed result *)

(** A kept field whose name no other spec bears finds under that name
    the variable that was made for it. *)
Lemma Autobox_init_cell (tk : Toolkit) (kwargs : gmap string pyval) (current : string)
    (self : Autobox) (f : field) :
  Autobox_init tk kwargs current = Ok self →
  f ∈ fields self →
  unique_name (fields self) f →
  ∃ vt c, variable_types !! field_type f = Some vt ∧
          var_set tk (new_var vt) (field_default f) = Ok c ∧
          data self !! field_name f = Some c.
Proof.
  intros Hinit Hf Huniq. apply Autobox_init_Ok in Hinit as (fs&_&_&Hdata&_).
  destruct (last_bearing (fields self) (field_name f))
    as (fs1 & g & fs2 & Hsplit & Hg & Hlast).
  { apply list_elem_of_fmap. by exists f. }
  assert (g = f) as ->.
  { apply Huniq; [|done]. rewrite Hsplit, elem_of_app, elem_of_cons. auto. }
  rewrite Hsplit in Hdata. by eapply create_variables_last.
Qed.

Lemma build_rows_widgets (fs : list field) (n : nat) (p : placed) :
  p ∈ build_rows n fs →
  (∃ t st, p_widget p = Label t st) ∨ ∃ g, g ∈ fs ∧ p_widget p = field_widget g.
Proof.
  revert n. induction fs as [|f fs IH]; intros n; simpl.
  - intros H. by apply elem_of_nil in H.
  - rewrite !elem_of_cons. intros [->|[->|H]].
    + left. simpl. eauto.
    + right. exists f. split; [apply list_elem_of_here|done].
    + destruct (IH _ H) as [?|(g & Hg & ?)]; [by left|].
      right. exists g. split; [by apply list_elem_of_further|done].
Qed.

Lemma Autobox_init_grid (tk : Toolkit) (kwargs : gmap string pyval) (current : string)
    (self : Autobox) (p : placed) :
  Autobox_init tk kwargs current = Ok self →
  p ∈ grid self → widget_from (fields self) (p_widget p).
Proof.
  intros Hinit Hp.
  apply Autobox_init_Ok in Hinit as (fs&_&_&Hdata&_&_&_&Hok&Hcancel&Hgrid&_).
  rewrite Hgrid, !elem_of_app in Hp. destruct Hp as [Hp|[Hp|Hp]].
  - left. unfold header_rows in Hp. apply elem_of_cons in Hp as [->|Hp]; [simpl; eauto|].
    destruct (truthy (error_message self)).
    + apply list_elem_of_singleton in Hp as ->. simpl. eauto.
    + by apply elem_of_nil in Hp.
  - apply build_rows_widgets in Hp as [?|(g & Hg & ?)]; [by left|].
    right; right.
    destruct (create_variables_each _ _ _ _ _ Hdata Hg) as (vt & c & Hvt & _).
    by exists g, vt.
  - unfold footer_rows in Hp. rewrite !elem_of_cons in Hp.
    destruct Hp as [->|[->|[->|Hp]]]; [| | |by apply elem_of_nil in Hp]; simpl.
    + left. eauto.
    + right; left. rewrite Hok. eauto.
    + right; left. rewrite Hcancel. eauto.
Qed.

Lemma write_var_select (tk : Toolkit) (f : field) (name t : string) (s : Autobox) :
  (field_name f = name → select_value tk f t) →
  select_ok tk f (data s) → select_ok tk f (data (write_var name t s)).
Proof.
  intros Hnew Hold c. simpl.
  destruct (decide (field_name f = name)) as [Heq|Hne].
  - rewrite <- Heq, lookup_alter_eq. destruct (data s !! field_name f); [|done].
    intros [= <-]. simpl. by apply Hnew.
  - rewrite lookup_alter_ne by done. by apply Hold.
Qed.

(** An edit leaves a select field that shares its name with no other
    spec with its seed or one of its options. *)
Lemma user_edit_select (tk : Toolkit) (fs : list field) (f : field) (e : edit)
    (s : Autobox) :
  unique_name fs f →
  f_type f = Some "select" →
  (∀ p, p ∈ grid s → widget_from fs (p_widget p)) →
  select_ok tk f (data s) → select_ok tk f (data (user_edit e s)).
Proof.
  intros Huniq Hsel Hgrid Hold.
  assert (∀ w wd, p_widget <$> grid s !! w = Some wd → widget_from fs wd) as Hw.
  { intros w wd H. destruct (grid s !! w) as [p|] eqn:E; [|done].
    injection H as <-. apply Hgrid. by eapply list_elem_of_lookup_2. }
  destruct e as [w t|w|w i]; simpl;
    destruct (p_widget <$> grid s !! w)
      as [[txt st|name [vals|] st|name|name sh|txt cb]|] eqn:E; try done.
  - apply write_var_select; [|done]. intros Hname.
    destruct (Hw _ _ E) as [(?&?&[=])|[(?&?&[=])|(g & vt & Hg & Hvt & Heq)]].
    destruct (field_widget_cases _ _ Hvt) as [H|[H|[H|[H|H]]]];
      destruct H as (Hty & _ & Hwd); rewrite Hwd in Heq; try discriminate Heq;
      injection Heq as -> _; rewrite (Huniq g Hg (eq_sym Hname)) in Hty; congruence.
  - destruct (data s !! name); [|done].
    apply write_var_select; [|done]. intros Hname.
    destruct (Hw _ _ E) as [(?&?&[=])|[(?&?&[=])|(g & vt & Hg & Hvt & Heq)]].
    destruct (field_widget_cases _ _ Hvt) as [H|[H|[H|[H|H]]]];
      destruct H as (Hty & _ & Hwd); rewrite Hwd in Heq; try discriminate Heq;
      injection Heq as ->; rewrite (Huniq g Hg (eq_sym Hname)) in Hty; congruence.
  - destruct (vals !! i) as [t|] eqn:Ei; [|done].
    apply write_var_select; [|done]. intros Hname.
    destruct (Hw _ _ E) as [(?&?&[=])|[(?&?&[=])|(g & vt & Hg & Hvt & Heq)]].
    destruct (field_widget_cases _ _ Hvt) as [H|[H|[H|[H|H]]]];
      destruct H as (Hty & _ & Hwd); rewrite Hwd in Heq; try discriminate Heq.
    injection Heq as -> Hopts _. rewrite (Huniq g Hg (eq_sym Hname)) in Hopts.
    right. exists vals. split; [done|]. by eapply list_elem_of_lookup_2.
Qed.

(** What the loop returns is empty, or was read by [ok_clicked] in a
    state that keeps every property the edits keep. *)
Lemma mainloop_inv (tk : Toolkit) (P : Autobox → Prop) (self : Autobox)
    (events : list event) (r : gmap string pyval) :
  (∀ e s, P s → P (user_edit e s)) →
  P self →
  mainloop tk self events = Some (Quit_with r) →
  r = ∅ ∨ ∃ s, P s ∧ ok_clicked tk s = Ok r.
Proof.
  intros Hstep. revert self. induction events as [|ev events IH]; intros self HP; [done|].
  assert (∀ cb, match run_callback tk cb self with
                | Continue s' => s' = self
                | Quit d => d = ∅ ∨ ok_clicked tk self = Ok d
                | Closed => False
                end) as Hcb.
  { intros [|]; simpl; [|by left]. destruct (ok_clicked tk self); [by right|done]. }
  simpl. destruct (dispatch tk ev self) as [s'|d|] eqn:E.
  - intros H. apply (IH s'); [|done].
    destruct ev as [e|b|k|]; simpl in E.
    + injection E as <-. by apply Hstep.
    + destruct (match b with Ok_button => _ | Cancel_button => _ end)
        as [| | | |txt cb]; try (by injection E as <-).
      specialize (Hcb cb). rewrite E in Hcb. by subst.
    + destruct (bindings self !! k) as [cb|]; [|by injection E as <-].
      specialize (Hcb cb). rewrite E in Hcb. by subst.
    + done.
  - intros [= <-]. destruct ev as [e|b|k|]; simpl in E; [done| | |done].
    + destruct (match b with Ok_button => _ | Cancel_button => _ end)
        as [| | | |txt cb]; try done.
      specialize (Hcb cb). rewrite E in Hcb. destruct Hcb; eauto.
    + destruct (bindings self !! k) as [cb|]; [|done].
      specialize (Hcb cb). rewrite E in Hcb. destruct Hcb; eauto.
  - done.
Qed.

Lemma field_type_select (f : field) :
  field_type f = "select" ↔ f_type f = Some "select".
Proof.
  unfold field_type. destruct (f_type f) as [t|]; simpl; split; congruence.
Qed.

(** C3, as the code has it.  Take a kept field whose name no other kept
    spec bears and let the loop end after any events.  If the field is a
    checkbox, the returned mapping holds a boolean for it; if it is a
    select field, the mapping holds one of its options or the string its
    variable was seeded with from the default (the empty string when
    there is none), which need not be among the options. *)
Theorem C3_committed_values (tk : Toolkit) (kwargs : gmap string pyval)
    (current : string) (self : Autobox) (events : list event)
    (r : gmap string pyval) (f : field) (v : pyval) :
  Autobox_init tk kwargs current = Ok self →
  f ∈ fields self →
  unique_name (fields self) f →
  mainloop tk self events = Some (Quit_with r) →
  r !! field_name f = Some v →
  (field_type f = "checkbox" → ∃ b, v = PyBool b) ∧
  (field_type f = "select" →
     v = PyStr (tcl_str tk (field_default f)) ∨
     ∃ opts o, f_options f = Some opts ∧ o ∈ opts ∧ v = PyStr o).
Proof.
  intros Hinit Hf Huniq Hloop Hv.
  destruct (Autobox_init_cell _ _ _ _ _ Hinit Hf Huniq) as (vt & c0 & Hvt & Hset & Hc0).
  pose proof (var_set_type _ _ _ _ Hset) as Hty0.
  apply (mainloop_inv tk
           (λ s, same_form self s ∧
                 (field_type f = "select" → select_ok tk f (data s)))) in Hloop.
  - destruct Hloop as [->|(s & [Hsame Hsel] & Hok)]; [by rewrite lookup_empty in Hv|].
    apply ok_clicked_reads in Hok. specialize (Hok (field_name f)).
    destruct Hsame as (_&_&_&_&_&Hcells). specialize (Hcells (field_name f)).
    rewrite Hc0 in Hcells. simpl in Hcells.
    destruct (data s !! field_name f) as [c|] eqn:Hc; [|congruence].
    injection Hcells as Hty. destruct Hok as (v' & Hget & Hr).
    assert (v' = v) as -> by congruence.
    unfold var_get in Hget. rewrite <- Hty, Hty0 in Hget. split.
    + intros Hcb. rewrite Hcb in Hvt. apply variable_types_lookup in Hvt.
      destruct Hvt as [[[=] _]|[[[=] _]|[[_ ->]|[[=] _]]]].
      destruct (getboolean tk (var_value c)) as [b|]; [|done].
      injection Hget as <-. by exists b.
    + intros Hs. rewrite Hs in Hvt. apply variable_types_lookup in Hvt.
      destruct Hvt as [[[=] _]|[[[=] _]|[[[=] _]|[_ ->]]]].
      injection Hget as <-.
      destruct (Hsel Hs c Hc) as [->|(opts & Hopts & Ho)]; [by left|].
      right. by exists opts, (var_value c).
  - intros e s [Hsame Hsel]. split.
    + eapply same_form_trans; [done|apply user_edit_same_form].
    + intros Hs. apply (user_edit_select tk (fields self)); [done| | |by apply Hsel].
      * by apply field_type_select.
      * intros p Hp. destruct Hsame as (_&Hgrid&_). rewrite <- Hgrid in Hp.
        by eapply Autobox_init_grid.
  - split; [apply same_form_refl|].
    intros Hs c Hc. assert (c0 = c) as <- by congruence.
    rewrite Hs in Hvt. apply variable_types_lookup in Hvt.
    destruct Hvt as [[[=] _]|[[[=] _]|[[[=] _]|[_ ->]]]].
    injection Hset as <-. by left.
Qed.

Lemma C3_committed_values_witness :
  ∃ self r,
    Autobox_init tkinter (kw [("fields", PyList ex_fields)]) "default" = Ok self ∧
    mainloop tkinter self [Edit (Choose 6 1); Edit (Toggle 4); Key "<Return>"] = Some (Quit_with r) ∧
    r !! "active" = Some (PyBool false) ∧
    r !! "role" = Some (PyStr "B") ∧
    (PyStr "B" = PyStr (tcl_str tkinter (PyStr "A")) ∨
     ∃ opts o, Some ["A"; "B"] = Some opts ∧ o ∈ opts ∧ PyStr "B" = PyStr o).
Proof.
  eexists _, _. split; [vm_compute; reflexivity|]. split; [vm_compute; reflexivity|].
  split; [vm_compute; reflexivity|]. split; [vm_compute; reflexivity|].
  eapply (C3_committed_values tkinter (kw [("fields", PyList ex_fields)]) "default" _
            [Edit (Choose 6 1); Edit (Toggle 4); Key "<Return>"] _
            (Field (Some "role") None (Some "select") (Some (PyStr "A"))
                   (Some ["A"; "B"])) (PyStr "B")).
  - vm_compute; reflexivity.
  - apply list_elem_of_In. simpl. tauto.
  - intros g Hg Hname. apply list_elem_of_In in Hg. simpl in Hg.
    destruct Hg as [<-|[<-|[<-|[]]]]; done.
  - vm_compute; reflexivity.
  - vm_compute; reflexivity.
  - reflexivity.
Defined.

(** Against C3 as first stated: a select field without a default,
    committed untouched, holds the empty string, which is none of its
    options. *)
Lemma C3_select_outside_options :
  ∃ r,
    autobox tkinter
      (kw [("fields",
            PyList [Field (Some "role") None (Some "select") None (Some ["A"; "B"])])])
      "default" [Click Ok_button] = Returned r ∧
    r !! "role" = Some (PyStr "") ∧
    ¬ ∃ o, o ∈ ["A"; "B"] ∧ r !! "role" = Some (PyStr o).
Proof.
  eexists. split; [vm_compute; reflexivity|]. split; [vm_compute; reflexivity|].
  intros (o & Ho & Hr). vm_compute in Hr. injection Hr as <-.
  apply list_elem_of_In in Ho. simpl in Ho. destruct Ho as [?|[?|[]]]; discriminate.
Qed.

(** Why the name must not be shared: an entry and a drop-down list under
    one name are bound to one variable, and what is typed in the entry is
    what the commit returns under that name. *)
Example duplicate_name_select_typed :
  autobox tkinter
    (kw [("fields",
          PyList [Field (Some "x") None (Some "text") None None;
                  Field (Some "x") None (Some "select") (Some (PyStr "A"))
                        (Some ["A"; "B"])])])
    "default" [Edit (Type_text 2 "zzz"); Click Ok_button]
  = Returned {[ "x" := PyStr "zzz" ]}.
Proof. vm_compute; reflexivity. Qed.

(** ** Defaults *)

(** The variable of a kept field is seeded with [field.get("default", "")]
    by [set]: a string variable then holds that value as a string, and a
    commit without edits returns it. *)
Lemma seeded_string_default (tk : Toolkit) (kwargs : gmap string pyval)
    (current : string) (self : Autobox) (f : field) (c : event)
    (r : gmap string pyval) :
  Autobox_init tk kwargs current = Ok self →
  f ∈ fields self →
  unique_name (fields self) f →
  field_type f ≠ "checkbox" →
  c ∈ commits →
  mainloop tk self [c] = Some (Quit_with r) →
  data self !! field_name f = Some (Var StringVar (tcl_str tk (field_default f))) ∧
  r !! field_name f = Some (PyStr (tcl_str tk (field_default f))).
Proof.
  intros Hinit Hf Hnd Hty Hc Hloop.
  destruct (Autobox_init_cell _ _ _ _ _ Hinit Hf Hnd) as (vt & c0 & Hvt & Hset & Hc0).
  apply variable_types_lookup in Hvt.
  assert (vt = StringVar) as -> by (destruct Hvt as [[_ ?]|[[_ ?]|[[? _]|[_ ?]]]]; done).
  injection Hset as <-. split; [done|].
  apply mainloop_commit in Hloop; [|by eapply Autobox_init_wired|done].
  apply ok_clicked_reads in Hloop. specialize (Hloop (field_name f)).
  rewrite Hc0 in Hloop. by destruct Hloop as (v & [= <-] & ->).
Qed.

(** A checkbox whose default is a boolean the toolkit stores and reads
    back returns that boolean. *)
Lemma seeded_boolean_default (tk : Toolkit) (kwargs : gmap string pyval)
    (current : string) (self : Autobox) (f : field) (b : bool) (t : string)
    (c : event) (r : gmap string pyval) :
  Autobox_init tk kwargs current = Ok self →
  f ∈ fields self →
  unique_name (fields self) f →
  field_type f = "checkbox" →
  f_default f = Some (PyBool b) →
  BooleanVar_set tk (PyBool b) = Some t →
  getboolean tk t = Some b →
  c ∈ commits →
  mainloop tk self [c] = Some (Quit_with r) →
  r !! field_name f = Some (PyBool b).
Proof.
  intros Hinit Hf Hnd Hty Hdef Hset Hget Hc Hloop.
  destruct (Autobox_init_cell _ _ _ _ _ Hinit Hf Hnd) as (vt & c0 & Hvt & Hset0 & Hc0).
  rewrite Hty in Hvt. apply variable_types_lookup in Hvt.
  destruct Hvt as [[[=] _]|[[[=] _]|[[_ ->]|[[=] _]]]].
  unfold var_set, field_default in Hset0. rewrite Hdef in Hset0. simpl in Hset0.
  rewrite Hset in Hset0. injection Hset0 as <-.
  apply mainloop_commit in Hloop; [|by eapply Autobox_init_wired|done].
  apply ok_clicked_reads in Hloop. specialize (Hloop (field_name f)).
  rewrite Hc0 in Hloop. destruct Hloop as (v & Hv & ->).
  unfold var_get in Hv. simpl in Hv. rewrite Hget in Hv. by injection Hv as <-.
Qed.

(** C4, where the code departs from it.  A checkbox field without a
    default is not seeded with false: its variable is handed the empty
    string, like every other variable.  A toolkit whose [BooleanVar.set]
    checks its argument refuses it and construction raises; a toolkit
    that stores it as it is cannot read it back, so the OK button leaves
    the dialog open.  In neither case does a commit return false. *)
Theorem C4_checkbox_without_default :
  let f := Field (Some "agree") None (Some "checkbox") None None in
  let kwargs := kw [("fields", PyList [f])] in
  field_default f = PyStr "" ∧
  (∀ tk d, create_variable tk d f =
     match BooleanVar_set tk (PyStr "") with
     | Some t => Ok (<["agree" := Var BooleanVar t]> d)
     | None => Err TclError
     end) ∧
  autobox tkinter kwargs "default" [Click Ok_button] = Raised TclError ∧
  (∃ self, Autobox_init tkinter_2013 kwargs "default" = Ok self ∧
           data self !! "agree" = Some (Var BooleanVar "") ∧
           ok_clicked tkinter_2013 self = Err ValueError) ∧
  autobox tkinter_2013 kwargs "default" [Click Ok_button] = Waiting.
Proof.
  intros f kwargs. split_and!.
  - reflexivity.
  - intros tk d. subst f. unfold create_variable, field_type, field_default, field_name.
    simpl. replace (variable_types !! "checkbox") with (Some BooleanVar)
      by (symmetry; apply variable_types_lookup; auto 10).
    unfold var_set. simpl. by destruct (BooleanVar_set tk (PyStr "")).
  - vm_compute; reflexivity.
  - eexists. split; [vm_compute; reflexivity|]. split; vm_compute; reflexivity.
  - vm_compute; reflexivity.
Qed.

(** ** Dialogs that always commit *)

Lemma create_variables_strings (tk : Toolkit) (fs : list field) (d : gmap string var) :
  (∀ f, f ∈ fs → field_type f ∈ ["text"; "hidden_text"; "select"]) →
  (∀ k c, d !! k = Some c → var_type c = StringVar) →
  ∃ d', create_variables tk fs d = Ok d' ∧
        ∀ k c, d' !! k = Some c → var_type c = StringVar.
Proof.
  revert d. induction fs as [|f fs IH]; intros d Hfs Hd; simpl; [by exists d|].
  assert (variable_types !! field_type f = Some StringVar) as Hvt.
  { apply variable_types_lookup.
    specialize (Hfs f (list_elem_of_here _ _)).
    rewrite !elem_of_cons, elem_of_nil in Hfs.
    destruct Hfs as [->|[->|[->|[]]]]; auto 10. }
  unfold create_variable. rewrite Hvt. simpl. apply IH.
  - intros g Hg. apply Hfs. by apply list_elem_of_further.
  - intros k c. rewrite lookup_insert_Some. intros [[_ <-]|[_ H]]; [done|by eapply Hd].
Qed.

(** When no keyword is named self, the fields are a list and the
    padding is one the toolkit takes, a dialog of text, hidden_text and
    select fields is always built, and after any edits a commit always
    makes [autobox] return a mapping. *)
Theorem string_dialog_commits (tk : Toolkit) (kwargs : gmap string pyval)
    (current : string) (fs : list field) (edits : list edit) (c : event) :
  kwargs !! "self" = None →
  iter_fields (fields_arg kwargs) = Ok fs →
  pad_accepted tk (kwargs_get kwargs "padding" (PyInt 5)) = true →
  (∀ f, f ∈ fs → has_name f = true →
        field_type f ∈ ["text"; "hidden_text"; "select"]) →
  c ∈ commits →
  ∃ self r, Autobox_init tk kwargs current = Ok self ∧
            mainloop tk self ((Edit <$> edits) ++ [c])%list = Some (Quit_with r) ∧
            autobox tk kwargs current ((Edit <$> edits) ++ [c])%list = Returned r.
Proof.
  intros Hself Hfs Hpad Hty Hc.
  destruct (create_variables_strings tk (List.filter has_name fs) ∅)
    as (d & Hd & Hstr).
  - intros f Hf. apply elem_of_retained in Hf as [? ?]. by apply Hty.
  - intros k c0. by rewrite lookup_empty.
  - destruct (Autobox_init tk kwargs current) as [self|e] eqn:Hinit.
    + pose proof (Autobox_init_wired _ _ _ _ Hinit) as Hw.
      pose proof Hinit as Hinit'.
      apply Autobox_init_Ok in Hinit as (fs'&Hfs'&Hfields&Hdata&_).
      assert (fs' = fs) as -> by congruence.
      rewrite Hfields, Hd in Hdata. injection Hdata as ->.
      pose proof (user_edits_same_form edits self) as Hsame.
      destruct (ok_clicked_total tk (user_edits edits self)) as [r Hr].
      * intros k c0 Hk. destruct Hsame as (_&_&_&_&_&Hcells).
        specialize (Hcells k). rewrite Hk in Hcells.
        destruct (data self !! k) as [c1|] eqn:Hk1; [|done].
        injection Hcells as Hcells. unfold var_get.
        rewrite <- Hcells, (Hstr k c1 Hk1). eauto.
      * assert (mainloop tk self ((Edit <$> edits) ++ [c])%list
                = Some (Quit_with r)) as Hloop.
        { rewrite mainloop_edits.
          apply mainloop_commit; [by eapply same_form_wired|done..]. }
        exists self, r. split_and!; [done..|].
        unfold autobox. by rewrite Hinit', Hloop.
    + pose proof (Autobox_init_raises tk kwargs current) as Hr.
      unfold bind_self, grid_padding in Hr.
      rewrite Hinit, Hself, Hfs, Hpad in Hr. simpl in Hr. rewrite Hd in Hr. simpl in Hr.
      by destruct (uses_padding _ _).
Qed.

Lemma string_dialog_commits_witness :
  ∃ self r,
    Autobox_init tkinter (kw [("fields", PyList (default_fields (PyStr "bob")))])
      "default" = Ok self ∧
    mainloop tkinter self ((Edit <$> [Type_text 4 "secret"]) ++ [Click Ok_button])%list
      = Some (Quit_with r) ∧
    autobox tkinter (kw [("fields", PyList (default_fields (PyStr "bob")))]) "default"
      ((Edit <$> [Type_text 4 "secret"]) ++ [Click Ok_button])%list = Returned r.
Proof.
  apply (string_dialog_commits tkinter
           (kw [("fields", PyList (default_fields (PyStr "bob")))]) "default"
           (default_fields (PyStr "bob")) [Type_text 4 "secret"] (Click Ok_button)).
  - reflexivity.
  - reflexivity.
  - reflexivity.
  - intros f Hf _. apply list_elem_of_In in Hf. simpl in Hf.
    destruct Hf as [<-|[<-|[]]]; apply list_elem_of_In; simpl; tauto.
  - apply list_elem_of_In. simpl. tauto.
Defined.

(** * Further properties *)

(** ** Keywords the constructor does not read *)

Lemma Autobox_init_agree (tk : Toolkit) (kwargs kwargs' : gmap string pyval)
    (current : string) :
  (∀ k, k ∈ "self" :: Autobox_keywords → kwargs' !! k = kwargs !! k) →
  Autobox_init tk kwargs' current = Autobox_init tk kwargs current.
Proof.
  intros H. unfold Autobox_init, bind_self, kwargs_get.
  rewrite !H; [done|..]; apply list_elem_of_In; simpl; tauto.
Qed.

(** [Autobox] and [autobox] take any keyword but self: one that is not
    among the seven the constructor reads changes neither the dialog nor
    what [autobox] returns or raises.  A keyword named self is a second
    value for the instance, and [autobox] raises [TypeError]. *)
Theorem autobox_ignores_unknown_keyword (tk : Toolkit) (kwargs : gmap string pyval)
    (current : string) (events : list event) (k : string) (v : pyval) :
  k ≠ "self" →
  k ∉ Autobox_keywords →
  Autobox_init tk (<[k := v]> kwargs) current = Autobox_init tk kwargs current ∧
  autobox tk (<[k := v]> kwargs) current events = autobox tk kwargs current events ∧
  autobox tk (<["self" := v]> kwargs) current events = Raised TypeError.
Proof.
  intros Hself Hk.
  assert (Autobox_init tk (<[k := v]> kwargs) current
          = Autobox_init tk kwargs current) as Hinit.
  { apply Autobox_init_agree. intros k' Hk'. apply lookup_insert_ne. intros ->.
    by apply elem_of_cons in Hk' as [?|?]. }
  split_and!; [done| |].
  - unfold autobox. by rewrite Hinit.
  - unfold autobox, Autobox_init, bind_self. by rewrite lookup_insert_eq.
Qed.

Lemma autobox_ignores_unknown_keyword_witness :
  autobox tkinter (<["title" := PyStr "Login"]> (kw [("fields", PyList ex_fields)]))
    "default" [Click Ok_button]
  = autobox tkinter (kw [("fields", PyList ex_fields)]) "default" [Click Ok_button].
Proof.
  apply (autobox_ignores_unknown_keyword tkinter _ "default" [Click Ok_button]
           "title" (PyStr "Login")); [done|].
  intros H. apply list_elem_of_In in H. simpl in H.
  destruct H as [?|[?|[?|[?|[?|[?|[?|[]]]]]]]]; discriminate.
Defined.

(** ** How the loop ends *)






(** ** An empty result *)

Lemma commit_dom (tk : Toolkit) (kwargs : gmap string pyval) (current : string)
    (self : Autobox) (edits : list edit) (c : event) (r : gmap string pyval) :
  Autobox_init tk kwargs current = Ok self →
  c ∈ commits →
  mainloop tk self ((Edit <$> edits) ++ [c])%list = Some (Quit_with r) →
  reads tk (data (user_edits edits self)) r ∧
  dom r = list_to_set (field_name <$> fields self).
Proof.
  intros Hinit Hc Hloop.
  pose proof (Autobox_init_wired _ _ _ _ Hinit) as Hw.
  apply Autobox_init_Ok in Hinit as (fs&_&_&Hdata&_).
  rewrite mainloop_edits in Hloop.
  pose proof (user_edits_same_form edits self) as Hsame.
  apply mainloop_commit in Hloop; [|by eapply same_form_wired|done].
  apply ok_clicked_reads in Hloop. split; [done|].
  rewrite (reads_dom _ _ _ Hloop), <- (same_form_dom _ _ Hsame).
  by rewrite (create_variables_dom _ _ _ _ Hdata), dom_empty_L, (left_id_L ∅ (∪)).
Qed.

(** A commit returns the empty mapping exactly when no field was kept
    (no fields given, or none with a name): only then can the caller not
    tell a commit from a cancel by [res == {}]. *)
Theorem commit_empty_iff_no_field (tk : Toolkit) (kwargs : gmap string pyval)
    (current : string) (self : Autobox) (edits : list edit) (c : event)
    (r : gmap string pyval) :
  Autobox_init tk kwargs current = Ok self →
  c ∈ commits →
  mainloop tk self ((Edit <$> edits) ++ [c])%list = Some (Quit_with r) →
  (r = ∅ ↔ fields self = []).
Proof.
  intros Hinit Hc Hloop.
  destruct (commit_dom _ _ _ _ _ _ _ Hinit Hc Hloop) as [_ Hdom].
  rewrite <- dom_empty_iff_L, Hdom. split.
  - intros H. destruct (fields self) as [|f fs]; [done|].
    simpl in H. assert (field_name f ∈ (∅ : gset string)) as Hin.
    { rewrite <- H. apply elem_of_union_l. by apply elem_of_singleton. }
    by apply not_elem_of_empty in Hin.
  - by intros ->.
Qed.

Lemma commit_empty_iff_no_field_witness :
  ∃ self r,
    Autobox_init tkinter (kw [("fields", PyList [Field None (Some "Orphan") None None None])])
      "default" = Ok self ∧
    mainloop tkinter self ((Edit <$> []) ++ [Click Ok_button])%list = Some (Quit_with r) ∧
    (r = ∅ ↔ fields self = []).
Proof.
  eexists _, _. split; [vm_compute; reflexivity|]. split; [vm_compute; reflexivity|].
  eapply (commit_empty_iff_no_field tkinter
            (kw [("fields", PyList [Field None (Some "Orphan") None None None])])
            "default" _ [] (Click Ok_button)).
  - vm_compute; reflexivity.
  - apply list_elem_of_In. simpl. tauto.
  - vm_compute; reflexivity.
Defined.

(** ** Variables and widgets go together *)

Lemma build_widgets_dom (fs : list field) (ws : gmap string widget) :
  dom (build_widgets fs ws) = dom ws ∪ list_to_set (field_name <$> fs).
Proof.
  revert ws. induction fs as [|f fs IH]; intros ws; simpl.
  - by rewrite (right_id_L ∅ (∪)).
  - rewrite IH, dom_insert_L.
    rewrite (comm_L (∪) {[field_name f]} (dom ws)). by rewrite (assoc_L (∪)).
Qed.

Lemma user_edits_widgets (edits : list edit) (self : Autobox) :
  widgets (user_edits edits self) = widgets self.
Proof.
  revert self. induction edits as [|e edits IH]; intros self; simpl; [done|].
  rewrite IH. destruct e as [w s|w|w i]; simpl;
    destruct (p_widget <$> grid self !! w)
      as [[txt st|name [vals|] st|name|name sh|txt cb]|]; try done.
  - by destruct (data self !! name).
  - by destruct (vals !! i).
Qed.

Lemma bound_name_field_widget (f : field) :
  bound_name (field_widget f) = Some (field_name f).
Proof.
  unfold field_widget.
  destruct (String.eqb (field_type f) "select"); [done|].
  destruct (String.eqb (field_type f) "checkbox"); [done|].
  by destruct (String.eqb (field_type f) "hidden_text").
Qed.

(** Once built, and after any edits, the dialog has a variable and a
    widget under exactly the names of the kept fields, and every input
    widget on the grid is bound to a variable that is there. *)
Theorem variables_and_widgets (tk : Toolkit) (kwargs : gmap string pyval)
    (current : string) (self : Autobox) (edits : list edit) :
  Autobox_init tk kwargs current = Ok self →
  let s := user_edits edits self in
  dom (data s) = list_to_set (field_name <$> fields self) ∧
  dom (widgets s) = dom (data s) ∧
  ∀ p k, p ∈ grid s → bound_name (p_widget p) = Some k → is_Some (data s !! k).
Proof.
  intros Hinit s.
  pose proof (user_edits_same_form edits self) as Hsame. fold s in Hsame.
  pose proof (Autobox_init_Ok _ _ _ _ Hinit) as (fs&_&_&Hdata&_&_&Hwidgets&_).
  assert (dom (data s) = list_to_set (field_name <$> fields self)) as Hdom.
  { rewrite <- (same_form_dom _ _ Hsame).
    by rewrite (create_variables_dom _ _ _ _ Hdata), dom_empty_L, (left_id_L ∅ (∪)). }
  split_and!.
  - done.
  - unfold s. rewrite user_edits_widgets, Hwidgets, build_widgets_dom.
    fold s. by rewrite Hdom, dom_empty_L, (left_id_L ∅ (∪)).
  - intros p k Hp Hk. destruct Hsame as (_&Hgrid&_). rewrite <- Hgrid in Hp.
    apply elem_of_dom. rewrite Hdom, elem_of_list_to_set, list_elem_of_fmap.
    destruct (Autobox_init_grid _ _ _ _ _ Hinit Hp)
      as [(?&?&Hw)|[(?&?&Hw)|(g & vt & Hg & _ & Hw)]];
      rewrite Hw in Hk; try discriminate Hk.
    rewrite bound_name_field_widget in Hk. injection Hk as <-. by exists g.
Qed.

Lemma variables_and_widgets_witness :
  ∃ self,
    Autobox_init tkinter (kw [("fields", PyList ex_fields)]) "default" = Ok self ∧
    dom (widgets (user_edits [Toggle 4; Choose 6 1] self))
    = dom (data (user_edits [Toggle 4; Choose 6 1] self)).
Proof.
  eexists. split; [vm_compute; reflexivity|].
  eapply (variables_and_widgets tkinter (kw [("fields", PyList ex_fields)]) "default").
  vm_compute; reflexivity.
Defined.

(** ** The layout *)

Lemma build_rows_positions (fs : list field) (m : nat) :
  NoDup (position <$> build_rows m fs) ∧
  ∀ p, p ∈ build_rows m fs → (m + 2 ≤ p_row p < m + 2 + length fs)%nat.
Proof.
  revert m. induction fs as [|f fs IH]; intros m; simpl.
  - split; [constructor|]. intros p H. by apply elem_of_nil in H.
  - destruct (IH (S m)) as [Hnd Hrows].
    assert (∀ c, (m + 2, c) ∉ position <$> build_rows (S m) fs) as Hout.
    { intros c H. apply list_elem_of_fmap in H as (p & Hp & Hin).
      apply Hrows in Hin. unfold position in Hp. injection Hp as Hp _. lia. }
    split.
    + apply NoDup_cons. split.
      * apply not_elem_of_cons. split; [by intros [=]|apply Hout].
      * apply NoDup_cons. split; [apply Hout|done].
    + intros p. rewrite !elem_of_cons. intros [->|[->|H]]; simpl; [lia..|].
      apply Hrows in H. lia.
Qed.

(** The row numbers are fixed: the header in row 0, the error label in
    row 1, field [n] in row [n + 2], the spacer in row 998 and the
    buttons in row 999.  So no two widgets share a grid cell as long as
    there are at most 996 kept fields, and from the 997th on a field's
    row falls on the spacer or the buttons. *)
Theorem grid_cells_distinct (tk : Toolkit) (kwargs : gmap string pyval)
    (current : string) (self : Autobox) :
  Autobox_init tk kwargs current = Ok self →
  (NoDup (position <$> grid self) ↔ (length (fields self) ≤ 996)%nat).
Proof.
  intros Hinit.
  apply Autobox_init_Ok in Hinit as (fs&_&_&_&_&_&_&_&_&Hgrid&_).
  rewrite Hgrid, !fmap_app.
  destruct (build_rows_positions (fields self) 0) as [Hnd Hrows].
  assert (∀ p, p ∈ header_rows (header_string self) (error_message self) →
               (p_row p ≤ 1)%nat ∧ p_column p = 0) as Hhead.
  { intros p. unfold header_rows. rewrite elem_of_cons. intros [->|H]; [simpl; lia|].
    destruct (truthy (error_message self)); [|by apply elem_of_nil in H].
    apply list_elem_of_singleton in H as ->. simpl. lia. }
  split.
  - intros H. apply NoDup_app in H as (_ & _ & H).
    apply NoDup_app in H as (_ & Hdisj & _).
    destruct (decide (length (fields self) ≤ 996)%nat) as [|Hlong]; [done|].
    destruct (lookup_lt_is_Some_2 (fields self) 996) as [f Hf]; [lia|].
    destruct (build_rows_lookup _ 0 _ _ Hf) as [Hlabel _].
    exfalso. apply (Hdisj (998, 0)).
    + apply list_elem_of_fmap. eexists. split; [|by eapply list_elem_of_lookup_2].
      reflexivity.
    + simpl. apply list_elem_of_here.
  - intros Hlen. apply NoDup_app. split_and!.
    + unfold header_rows. destruct (truthy (error_message self)); simpl.
      * apply NoDup_cons. split; [|apply NoDup_singleton].
        apply not_elem_of_cons. split; [by intros [=]|apply not_elem_of_nil].
      * apply NoDup_singleton.
    + intros x Hx Hx'. apply list_elem_of_fmap in Hx as (p & -> & Hp).
      apply Hhead in Hp as [Hrow _].
      apply elem_of_app in Hx' as [Hx'|Hx'].
      * apply list_elem_of_fmap in Hx' as (q & Hq & Hin). apply Hrows in Hin.
        unfold position in Hq. injection Hq as Hq _. lia.
      * simpl in Hx'. rewrite !elem_of_cons, elem_of_nil in Hx'. unfold position in Hx'.
        destruct Hx' as [[=]|[[=]|[[=]|[]]]]; lia.
    + apply NoDup_app. split_and!.
      * done.
      * intros x Hx Hx'. apply list_elem_of_fmap in Hx as (q & -> & Hin).
        apply Hrows in Hin. simpl in Hx'.
        rewrite !elem_of_cons, elem_of_nil in Hx'. unfold position in Hx'.
        destruct Hx' as [[=]|[[=]|[[=]|[]]]]; lia.
      * simpl. unfold position; simpl. apply NoDup_cons. split.
        -- rewrite !not_elem_of_cons. split_and!; [by intros [=]..|apply not_elem_of_nil].
        -- apply NoDup_cons. split; [|apply NoDup_singleton].
           apply not_elem_of_cons. split; [by intros [=]|apply not_elem_of_nil].
Qed.

Lemma grid_cells_distinct_witness :
  ∃ self,
    Autobox_init tkinter (kw [("fields", PyList ex_fields)]) "default" = Ok self ∧
    (NoDup (position <$> grid self) ↔ (length (fields self) ≤ 996)%nat).
Proof.
  eexists. split; [vm_compute; reflexivity|].
  eapply (grid_cells_distinct tkinter (kw [("fields", PyList ex_fields)]) "default").
  vm_compute; reflexivity.
Defined.

Lemma Autobox_init_texts (tk : Toolkit) (kwargs : gmap string pyval) (current : string)
    (self : Autobox) :
  Autobox_init tk kwargs current = Ok self →
  title_string self = kwargs_get kwargs "title_string" (PyStr "") ∧
  header_string self = kwargs_get kwargs "header_string" (PyStr "") ∧
  padding self = kwargs_get kwargs "padding" (PyInt 5) ∧
  error_message self = kwargs_get kwargs "error_message" PyNone ∧
  ok_label self = kwargs_get kwargs "ok_label" (PyStr "OK").
Proof.
  intros H. by init_inv H fs Hfs d Hd.
Qed.

(** Field [n] has its label in column 0 of row [n + 2]: the text of its
    label key, or its name when it has no label key. *)
Theorem field_row_label (tk : Toolkit) (kwargs : gmap string pyval) (current : string)
    (self : Autobox) (n : nat) (f : field) :
  Autobox_init tk kwargs current = Ok self →
  fields self !! n = Some f →
  ∃ text, grid self !! (rows_start self + 2 * n) = Some (Placed (n + 2) 0 (Label (PyStr text) None)) ∧
          (∀ l, f_label f = Some l → text = l) ∧
          (f_label f = None → f_name f = Some text).
Proof.
  intros Hinit Hn.
  pose proof (Autobox_init_Ok _ _ _ _ Hinit) as (fs&_&Hfields&_&_&_&_&_&_&Hgrid&_).
  exists (field_label f). split_and!.
  - destruct (build_rows_lookup _ 0 _ _ Hn) as [Hrow _]. unfold rows_start.
    replace (2 * n) with (n + n) by lia.
    rewrite Hgrid, lookup_app_r by lia.
    replace (_ + (n + n) - _) with (n + n) by lia.
    rewrite lookup_app_l; [done|]. apply lookup_lt_is_Some. eauto.
  - intros l Hl. unfold field_label. by rewrite Hl.
  - intros Hl. unfold field_label, field_name. rewrite Hl. simpl.
    assert (f ∈ List.filter has_name fs) as Hf.
    { rewrite <- Hfields. by eapply list_elem_of_lookup_2. }
    apply elem_of_retained in Hf as [_ Hf].
    apply has_name_spec in Hf as (k & -> & _). done.
Qed.

Lemma field_row_label_witness :
  ∃ self text,
    Autobox_init tkinter (kw [("fields", PyList ex_fields)]) "default" = Ok self ∧
    grid self !! (rows_start self + 2 * 1)
    = Some (Placed (1 + 2) 0 (Label (PyStr text) None)) ∧
    Some "active" = Some text.
Proof.
  eexists.
  destruct (field_row_label tkinter (kw [("fields", PyList ex_fields)]) "default"
              _ 1 (Field (Some "active") None (Some "checkbox") (Some (PyBool true)) None)
              ltac:(vm_compute; reflexivity) eq_refl) as (text & Hgrid & _ & Hname).
  exists text. split; [vm_compute; reflexivity|]. split; [exact Hgrid|].
  by apply Hname.
Defined.

(** The error label is there exactly when an error message was given
    that Python counts as true: it is the widget of row 1, in the error
    style; a missing, [None] or empty message leaves row 1 free. *)
Theorem error_label_iff_message (tk : Toolkit) (kwargs : gmap string pyval)
    (current : string) (self : Autobox) :
  Autobox_init tk kwargs current = Ok self →
  let message := kwargs_get kwargs "error_message" PyNone in
  ((∃ p, p ∈ grid self ∧ p_row p = 1) ↔ truthy message = true) ∧
  (truthy message = true →
   ∀ p, p ∈ grid self → p_row p = 1 →
        p = Placed 1 0 (Label message (Some "Error.TLabel"))).
Proof.
  intros Hinit message.
  pose proof (Autobox_init_texts _ _ _ _ Hinit) as (_&_&_&Hmsg&_).
  apply Autobox_init_Ok in Hinit as (fs&_&_&_&_&_&_&_&_&Hgrid&_).
  fold message in Hmsg.
  destruct (build_rows_positions (fields self) 0) as [_ Hrows].
  assert (∀ p, p ∈ grid self → p_row p = 1 →
               truthy message = true ∧
               p = Placed 1 0 (Label message (Some "Error.TLabel"))) as Honly.
  { intros p Hp Hrow. rewrite Hgrid, !elem_of_app in Hp.
    destruct Hp as [Hp|[Hp|Hp]].
    - unfold header_rows in Hp. rewrite Hmsg in Hp.
      apply elem_of_cons in Hp as [->|Hp]; [discriminate Hrow|].
      destruct (truthy message); [|by apply elem_of_nil in Hp].
      by apply list_elem_of_singleton in Hp as ->.
    - apply Hrows in Hp. lia.
    - unfold footer_rows in Hp. rewrite !elem_of_cons, elem_of_nil in Hp.
      destruct Hp as [->|[->|[->|[]]]]; discriminate Hrow. }
  split.
  - split.
    + intros (p & Hp & Hrow). by destruct (Honly p Hp Hrow).
    + intros Ht. exists (Placed 1 0 (Label message (Some "Error.TLabel"))).
      split; [|done]. rewrite Hgrid. apply elem_of_app. left.
      unfold header_rows. rewrite Hmsg, Ht. apply list_elem_of_further, list_elem_of_here.
  - intros _ p Hp Hrow. by destruct (Honly p Hp Hrow).
Qed.

Lemma error_label_iff_message_witness :
  ∃ self,
    Autobox_init tkinter (kw [("error_message", PyStr "Authentication failed")])
      "default" = Ok self ∧
    ∃ p, p ∈ grid self ∧ p_row p = 1.
Proof.
  eexists. split; [vm_compute; reflexivity|].
  eapply (proj1 (error_label_iff_message tkinter
                   (kw [("error_message", PyStr "Authentication failed")]) "default" _ _)).
  reflexivity.
  Unshelve. vm_compute; reflexivity.
Defined.

(** ** What the user entered is what comes back *)

Lemma user_edits_snoc (edits : list edit) (e : edit) (self : Autobox) :
  user_edits (edits ++ [e]) self = user_edit e (user_edits edits self).
Proof. unfold user_edits. by rewrite foldl_app. Qed.

(** The widget of field [n] and, when no later field bears the name, its
    variable. *)
Lemma field_widget_and_cell (tk : Toolkit) (kwargs : gmap string pyval)
    (current : string) (self : Autobox) (n : nat) (f : field) :
  Autobox_init tk kwargs current = Ok self →
  fields self !! n = Some f →
  field_name f ∉ field_name <$> drop (S n) (fields self) →
  grid self !! (rows_start self + (2 * n + 1)) = Some (Placed (n + 2) 1 (field_widget f)) ∧
  ∃ vt c0, variable_types !! field_type f = Some vt ∧
           var_set tk (new_var vt) (field_default f) = Ok c0 ∧
           data self !! field_name f = Some c0.
Proof.
  intros Hinit Hn Hlast.
  apply Autobox_init_Ok in Hinit as (fs&_&_&Hdata&_&_&_&_&_&Hgrid&_).
  split.
  - destruct (build_rows_lookup _ 0 _ _ Hn) as [_ Hrow]. unfold rows_start.
    replace (2 * n + 1) with (S (n + n)) by lia.
    rewrite Hgrid, lookup_app_r by lia.
    replace (_ + S (n + n) - _) with (S (n + n)) by lia.
    rewrite lookup_app_l; [done|]. apply lookup_lt_is_Some. eauto.
  - rewrite <- (take_drop_middle _ _ _ Hn) in Hdata.
    by eapply create_variables_last.
Qed.

(** A string written last into a string variable is what the commit
    returns under its name. *)
Lemma written_string_is_read (tk : Toolkit) (s : Autobox) (name t : string)
    (c1 : var) (r : gmap string pyval) :
  data s !! name = Some c1 →
  var_type c1 = StringVar →
  ok_clicked tk (write_var name t s) = Ok r →
  r !! name = Some (PyStr t).
Proof.
  intros Hc1 Hty Hok. apply ok_clicked_reads in Hok. specialize (Hok name).
  simpl in Hok. rewrite lookup_alter_eq, Hc1 in Hok. simpl in Hok.
  destruct Hok as (v & Hv & ->). unfold var_get in Hv. simpl in Hv.
  rewrite Hty in Hv. by injection Hv as <-.
Qed.

Lemma same_form_cell (a b : Autobox) (k : string) (c0 : var) :
  same_form a b → data a !! k = Some c0 →
  ∃ c1, data b !! k = Some c1 ∧ var_type c1 = var_type c0.
Proof.
  intros (_&_&_&_&_&H) Hk. specialize (H k). rewrite Hk in H.
  destruct (data b !! k) as [c1|]; [|done]. injection H as H. by exists c1.
Qed.

(** For a text or hidden_text field (or one without a type) whose name
    no later field bears: whatever was edited before, the text the user
    leaves in its entry is the string a commit returns for it. *)
Theorem typed_text_is_returned (tk : Toolkit) (kwargs : gmap string pyval)
    (current : string) (self : Autobox) (n : nat) (f : field) (edits : list edit)
    (t : string) (c : event) (r : gmap string pyval) :
  Autobox_init tk kwargs current = Ok self →
  fields self !! n = Some f →
  field_name f ∉ field_name <$> drop (S n) (fields self) →
  f_type f ∈ [None; Some "text"; Some "hidden_text"] →
  c ∈ commits →
  mainloop tk self
    ((Edit <$> (edits ++ [Type_text (rows_start self + (2 * n + 1)) t])) ++ [c])%list
    = Some (Quit_with r) →
  r !! field_name f = Some (PyStr t).
Proof.
  intros Hinit Hn Hlast Hty Hc Hloop.
  pose proof (Autobox_init_wired _ _ _ _ Hinit) as Hw.
  destruct (field_widget_and_cell _ _ _ _ _ _ Hinit Hn Hlast)
    as (Hgrid & vt & c0 & Hvt & Hset & Hc0).
  pose proof (var_set_type _ _ _ _ Hset) as Hty0.
  rewrite mainloop_edits in Hloop.
  pose proof (user_edits_same_form (edits ++ [Type_text (rows_start self + (2 * n + 1)) t])
                self) as Hsame'.
  apply mainloop_commit in Hloop; [|by eapply same_form_wired|done].
  rewrite user_edits_snoc in Hloop.
  pose proof (user_edits_same_form edits self) as Hsame.
  destruct (same_form_cell _ _ _ _ Hsame Hc0) as (c1 & Hc1 & Hty1).
  destruct Hsame as (_&Hg&_).
  assert (field_widget f = Entry (field_name f) None ∨
          field_widget f = Entry (field_name f) (Some "*")) as Hwd.
  { destruct (field_widget_cases _ _ Hvt) as [H|[H|[H|[H|H]]]];
      destruct H as (Hf & _ & ?); auto; rewrite Hf in Hty;
      rewrite !elem_of_cons, elem_of_nil in Hty;
      destruct Hty as [?|[?|[?|[]]]]; discriminate. }
  assert (vt = StringVar) as ->.
  { destruct (field_widget_cases _ _ Hvt) as [H|[H|[H|[H|H]]]];
      destruct H as (Hf & ? & Hwd'); try done.
    destruct Hwd as [Hwd|Hwd]; rewrite Hwd in Hwd'; discriminate. }
  unfold user_edit in Hloop. rewrite <- Hg, Hgrid in Hloop. simpl in Hloop.
  destruct Hwd as [Hwd|Hwd]; rewrite Hwd in Hloop;
    eapply written_string_is_read; eauto; congruence.
Qed.

Lemma typed_text_is_returned_witness :
  ∃ self r,
    Autobox_init tkinter (kw [("fields", PyList ex_fields)]) "default" = Ok self ∧
    mainloop tkinter self
      ((Edit <$> ([Toggle 4; Type_text 2 "al"]
                  ++ [Type_text (rows_start self + (2 * 0 + 1)) "alice"]))
       ++ [Key "<Return>"])%list = Some (Quit_with r) ∧
    r !! "username" = Some (PyStr "alice").
Proof.
  eexists _, _. split; [vm_compute; reflexivity|]. split; [vm_compute; reflexivity|].
  eapply (typed_text_is_returned tkinter (kw [("fields", PyList ex_fields)]) "default"
            _ 0 (Field (Some "username") None (Some "text") (Some (PyStr "bob")) None)
            [Toggle 4; Type_text 2 "al"] "alice" (Key "<Return>")).
  - vm_compute; reflexivity.
  - reflexivity.
  - simpl. rewrite !not_elem_of_cons. split_and!; try discriminate. apply not_elem_of_nil.
  - apply list_elem_of_In. simpl. tauto.
  - apply list_elem_of_In. simpl. tauto.
  - vm_compute; reflexivity.
Defined.

(** For a select field whose name no later field bears: the option the
    user picks last in its drop-down list is the string a commit returns
    for it. *)
Theorem chosen_option_is_returned (tk : Toolkit) (kwargs : gmap string pyval)
    (current : string) (self : Autobox) (n i : nat) (f : field) (edits : list edit)
    (opts : list string) (o : string) (c : event) (r : gmap string pyval) :
  Autobox_init tk kwargs current = Ok self →
  fields self !! n = Some f →
  field_name f ∉ field_name <$> drop (S n) (fields self) →
  f_type f = Some "select" →
  f_options f = Some opts →
  opts !! i = Some o →
  c ∈ commits →
  mainloop tk self
    ((Edit <$> (edits ++ [Choose (rows_start self + (2 * n + 1)) i])) ++ [c])%list
    = Some (Quit_with r) →
  r !! field_name f = Some (PyStr o).
Proof.
  intros Hinit Hn Hlast Hty Hopts Hi Hc Hloop.
  pose proof (Autobox_init_wired _ _ _ _ Hinit) as Hw.
  destruct (field_widget_and_cell _ _ _ _ _ _ Hinit Hn Hlast)
    as (Hgrid & vt & c0 & Hvt & Hset & Hc0).
  pose proof (var_set_type _ _ _ _ Hset) as Hty0.
  rewrite mainloop_edits in Hloop.
  pose proof (user_edits_same_form (edits ++ [Choose (rows_start self + (2 * n + 1)) i])
                self) as Hsame'.
  apply mainloop_commit in Hloop; [|by eapply same_form_wired|done].
  rewrite user_edits_snoc in Hloop.
  pose proof (user_edits_same_form edits self) as Hsame.
  destruct (same_form_cell _ _ _ _ Hsame Hc0) as (c1 & Hc1 & Hty1).
  destruct Hsame as (_&Hg&_).
  assert (vt = StringVar ∧
          field_widget f = Combobox (field_name f) (Some opts) "readonly") as [-> Hwd].
  { destruct (field_widget_cases _ _ Hvt) as [H|[H|[H|[H|H]]]];
      destruct H as (Hf & ? & Hwd'); try congruence.
    by rewrite Hwd', Hopts. }
  unfold user_edit in Hloop. rewrite <- Hg, Hgrid in Hloop. simpl in Hloop.
  rewrite Hwd, Hi in Hloop.
  eapply written_string_is_read; eauto; congruence.
Qed.

Lemma chosen_option_is_returned_witness :
  ∃ self r,
    Autobox_init tkinter (kw [("fields", PyList ex_fields)]) "default" = Ok self ∧
    mainloop tkinter self
      ((Edit <$> ([Toggle 4] ++ [Choose (rows_start self + (2 * 2 + 1)) 1]))
       ++ [Click Ok_button])%list = Some (Quit_with r) ∧
    r !! "role" = Some (PyStr "B").
Proof.
  eexists _, _. split; [vm_compute; reflexivity|]. split; [vm_compute; reflexivity|].
  eapply (chosen_option_is_returned tkinter (kw [("fields", PyList ex_fields)]) "default"
            _ 2 1 (Field (Some "role") None (Some "select") (Some (PyStr "A"))
                         (Some ["A"; "B"]))
            [Toggle 4] ["A"; "B"] "B" (Click Ok_button)).
  - vm_compute; reflexivity.
  - reflexivity.
  - apply not_elem_of_nil.
  - reflexivity.
  - reflexivity.
  - reflexivity.
  - apply list_elem_of_In. simpl. tauto.
  - vm_compute; reflexivity.
Defined.

(** ** Edits elsewhere *)

Lemma user_edit_other (e : edit) (s : Autobox) (k : string) :
  target_name s (edit_target e) ≠ Some k →
  data (user_edit e s) !! k = data s !! k.
Proof.
  unfold target_name. intros Hk.
  destruct e as [w t|w|w i]; simpl in *;
    destruct (p_widget <$> grid s !! w)
      as [[txt st|name [vals|] st|name|name sh|txt cb]|]; simpl in *; try done.
  - apply lookup_alter_ne. congruence.
  - destruct (data s !! name); [|done]. apply lookup_alter_ne. congruence.
  - destruct (vals !! i); [|done]. apply lookup_alter_ne. congruence.
Qed.

Lemma user_edits_other (edits : list edit) (self : Autobox) (k : string) :
  (∀ e, e ∈ edits → target_name self (edit_target e) ≠ Some k) →
  data (user_edits edits self) !! k = data self !! k.
Proof.
  revert self. induction edits as [|e edits IH]; intros self Hk; simpl; [done|].
  rewrite IH.
  - apply user_edit_other, Hk, list_elem_of_here.
  - intros e' He'. unfold target_name.
    destruct (user_edit_same_form e self) as (_&<-&_).
    by apply Hk, list_elem_of_further.
Qed.

(** Edits made on the widgets of other names do not reach a field: if
    no edit is made on a widget bound to its name, a commit returns for
    it what its variable, seeded from the default of the last spec
    bearing the name, reads as; for a text, hidden_text or select field
    that is the default as a string, the empty string when there is
    none. *)
Theorem untouched_field_returns_default (tk : Toolkit) (kwargs : gmap string pyval)
    (current : string) (self : Autobox) (n : nat) (f : field) (edits : list edit)
    (c : event) (r : gmap string pyval) :
  Autobox_init tk kwargs current = Ok self →
  fields self !! n = Some f →
  field_name f ∉ field_name <$> drop (S n) (fields self) →
  (∀ e, e ∈ edits → target_name self (edit_target e) ≠ Some (field_name f)) →
  c ∈ commits →
  mainloop tk self ((Edit <$> edits) ++ [c])%list = Some (Quit_with r) →
  ∃ vt c0 v,
    variable_types !! field_type f = Some vt ∧
    var_set tk (new_var vt) (field_default f) = Ok c0 ∧
    var_get tk c0 = Ok v ∧
    r !! field_name f = Some v ∧
    (field_type f ≠ "checkbox" → v = PyStr (tcl_str tk (field_default f))).
Proof.
  intros Hinit Hn Hlast Hedits Hc Hloop.
  destruct (field_widget_and_cell _ _ _ _ _ _ Hinit Hn Hlast)
    as (_ & vt & c0 & Hvt & Hset & Hc0).
  destruct (commit_dom _ _ _ _ _ _ _ Hinit Hc Hloop) as [Hreads _].
  specialize (Hreads (field_name f)).
  rewrite (user_edits_other _ _ _ Hedits), Hc0 in Hreads.
  destruct Hreads as (v & Hv & Hr).
  exists vt, c0, v. split_and!; try done.
  intros Hty. apply variable_types_lookup in Hvt.
  assert (vt = StringVar) as -> by (destruct Hvt as [[_ ?]|[[_ ?]|[[? _]|[_ ?]]]]; done).
  injection Hset as <-. by injection Hv as <-.
Qed.

Lemma untouched_field_returns_default_witness :
  ∃ self r,
    Autobox_init tkinter (kw [("fields", PyList ex_fields)]) "default" = Ok self ∧
    mainloop tkinter self ((Edit <$> [Toggle 4; Choose 6 1]) ++ [Click Ok_button])%list
      = Some (Quit_with r) ∧
    ∃ vt c0 v,
      variable_types !! "text" = Some vt ∧
      var_set tkinter (new_var vt) (PyStr "bob") = Ok c0 ∧
      var_get tkinter c0 = Ok v ∧
      r !! "username" = Some v ∧
      ("text" ≠ "checkbox" → v = PyStr "bob").
Proof.
  eexists _, _. split; [vm_compute; reflexivity|]. split; [vm_compute; reflexivity|].
  eapply (untouched_field_returns_default tkinter (kw [("fields", PyList ex_fields)])
            "default" _ 0
            (Field (Some "username") None (Some "text") (Some (PyStr "bob")) None)
            [Toggle 4; Choose 6 1] (Click Ok_button)).
  - vm_compute; reflexivity.
  - reflexivity.
  - simpl. rewrite !not_elem_of_cons. split_and!; try discriminate. apply not_elem_of_nil.
  - intros e He. rewrite !elem_of_cons, elem_of_nil in He.
    destruct He as [->|[->|[]]]; vm_compute; discriminate.
  - apply list_elem_of_In. simpl. tauto.
  - vm_compute; reflexivity.
Defined.

(** ** The login box, in full *)


Lemma loginbox_keyword_clash (tk : Toolkit) (kwargs : gmap string pyval)
    (current : string) (events : list event) (k : string) :
  k ∈ ["fields"; "ok_label"; "title_string"] →
  is_Some (kwargs !! k) →
  loginbox tk kwargs current events = Raised TypeError.
Proof.
  intros Hk Hsome. unfold loginbox.
  destruct (get_and_pop_or kwargs "additional_fields" (PyList []))
    as [af kw1] eqn:E1.
  destruct (get_and_pop_or kw1 "default_username" (PyStr "")) as [du kw2] eqn:E2.
  destruct af as [| | | |extra]; try done. simpl.
  assert (k ≠ "additional_fields" ∧ k ≠ "default_username") as [? ?].
  { rewrite !elem_of_cons, elem_of_nil in Hk.
    destruct Hk as [->|[->|[->|[]]]]; by split. }
  rewrite (call_keywords_clash _ _ k); [done|done|].
  rewrite (get_and_pop_or_lookup _ _ _ k _ _ E2) by done.
  by rewrite (get_and_pop_or_lookup _ _ _ k _ _ E1).
Qed.



Lemma autobox_agree (tk : Toolkit) (kwargs kwargs' : gmap string pyval)
    (current : string) (events : list event) :
  (∀ k, k ∈ "self" :: Autobox_keywords → kwargs' !! k = kwargs !! k) →
  autobox tk kwargs' current events = autobox tk kwargs current events.
Proof. intros H. unfold autobox. by rewrite (Autobox_init_agree _ _ _ _ H). Qed.

Lemma get_and_pop_or_insert_ne (kwargs : gmap string pyval) (k k' : string)
    (d v : pyval) :
  k ≠ k' →
  get_and_pop_or (<[k' := v]> kwargs) k d
  = ((get_and_pop_or kwargs k d).1, <[k' := v]> (get_and_pop_or kwargs k d).2).
Proof.
  intros Hne. unfold get_and_pop_or. rewrite lookup_insert_ne by done.
  destruct (kwargs !! k) as [x|]; [|done].
  destruct (truthy x); [|done]. simpl. by rewrite delete_insert_ne.
Qed.

Lemma call_keywords_insert (named : list (string * pyval)) (kwargs : gmap string pyval)
    (k : string) (v : pyval) :
  k ∉ named.*1 →
  call_keywords named (<[k := v]> kwargs)
  = match call_keywords named kwargs with
    | Ok m => Ok (<[k := v]> m)
    | Err e => Err e
    end.
Proof.
  intros Hk. unfold call_keywords.
  assert (forallb (λ kv, bool_decide (<[k := v]> kwargs !! kv.1 = None)) named
          = forallb (λ kv, bool_decide (kwargs !! kv.1 = None)) named) as ->.
  { clear -Hk. induction named as [|[k0 v0] named IH]; simpl in *; [done|].
    apply not_elem_of_cons in Hk as [Hne Hk].
    rewrite IH by done. by rewrite lookup_insert_ne. }
  destruct (forallb _ named); [|done]. simpl. f_equal.
  symmetry. apply insert_union_r. by apply not_elem_of_list_to_map_1.
Qed.

(** An [additional_fields] or [default_username] keyword whose value
    counts as false (an empty list, an empty string, [None], zero) is
    the same as none: it is not taken out of the keywords, and [autobox]
    does not read it. *)
Theorem loginbox_false_keyword (tk : Toolkit) (kwargs : gmap string pyval)
    (current : string) (events : list event) (k : string) (v : pyval) :
  k ∈ ["additional_fields"; "default_username"] →
  kwargs !! k = None →
  truthy v = false →
  loginbox tk (<[k := v]> kwargs) current events = loginbox tk kwargs current events.
Proof.
  intros Hk Hnone Hfalse.
  assert (∃ af du kw2,
            get_and_pop_or kwargs "additional_fields" (PyList []) = (af, kw2.1) ∧
            get_and_pop_or kw2.1 "default_username" (PyStr "") = (du, kw2.2) ∧
            ∃ kw1', get_and_pop_or (<[k := v]> kwargs) "additional_fields" (PyList [])
                    = (af, kw1') ∧
                    get_and_pop_or kw1' "default_username" (PyStr "")
                    = (du, <[k := v]> kw2.2)) as (af & du & [kw1 kw2] & E1 & E2 & kw1' & E1' & E2').
  { destruct (get_and_pop_or kwargs "additional_fields" (PyList []))
      as [af kw1] eqn:E1.
    destruct (get_and_pop_or kw1 "default_username" (PyStr "")) as [du kw2] eqn:E2.
    exists af, du, (kw1, kw2). split; [done|]. split; [done|]. simpl.
    rewrite !elem_of_cons, elem_of_nil in Hk. destruct Hk as [->|[->|[]]].
    - unfold get_and_pop_or in E1. rewrite Hnone in E1. injection E1 as <- <-.
      exists (<["additional_fields" := v]> kwargs). split.
      + unfold get_and_pop_or. by rewrite lookup_insert_eq, Hfalse.
      + rewrite get_and_pop_or_insert_ne by done. by rewrite E2.
    - exists (<["default_username" := v]> kw1). split.
      + rewrite get_and_pop_or_insert_ne by done. by rewrite E1.
      + assert (kw1 !! "default_username" = None) as Hkw1.
        { by rewrite (get_and_pop_or_lookup _ _ _ "default_username" _ _ E1). }
        unfold get_and_pop_or in E2. rewrite Hkw1 in E2. injection E2 as <- <-.
        unfold get_and_pop_or. by rewrite lookup_insert_eq, Hfalse. }
  simpl in E1, E2, E2'.
  assert (k ≠ "ok_label" ∧ k ≠ "title") as [Hk1 Hk2].
  { rewrite !elem_of_cons, elem_of_nil in Hk. destruct Hk as [->|[->|[]]]; by split. }
  assert (kwargs_get kw1' "ok_label" (PyStr "Log In")
          = kwargs_get kw1 "ok_label" (PyStr "Log In")) as Hok.
  { unfold kwargs_get.
    rewrite (get_and_pop_or_lookup _ _ _ "ok_label" _ _ E1') by done.
    rewrite (get_and_pop_or_lookup _ _ _ "ok_label" _ _ E1) by done.
    by rewrite lookup_insert_ne. }
  unfold loginbox. rewrite E1, E1', E2, E2', Hok, kwargs_get_insert_ne by done.
  destruct (list_add (default_fields du) af) as [fs|e]; [|done].
  rewrite call_keywords_insert.
  - destruct (call_keywords _ kw2) as [m|e]; [|done].
    apply autobox_agree. intros k' Hk'. apply lookup_insert_ne. intros ->.
    apply list_elem_of_In in Hk, Hk'. simpl in Hk, Hk'.
    destruct Hk as [<-|[<-|[]]];
      destruct Hk' as [?|[?|[?|[?|[?|[?|[?|[?|[]]]]]]]]]; discriminate.
  - simpl. rewrite !elem_of_cons, elem_of_nil in Hk. rewrite !not_elem_of_cons.
    destruct Hk as [->|[->|[]]]; split_and!; try discriminate; apply not_elem_of_nil.
Qed.

Lemma loginbox_false_keyword_witness :
  loginbox tkinter (<["additional_fields" := PyList []]> (kw [("title", PyStr "Sign in")]))
    "default" [Click Ok_button]
  = loginbox tkinter (kw [("title", PyStr "Sign in")]) "default" [Click Ok_button].
Proof.
  apply loginbox_false_keyword.
  - apply list_elem_of_In. simpl. tauto.
  - reflexivity.
  - reflexivity.
Defined.

(** ** The module run as a program *)

(** Run as a program, the module never gets to show a dialog: its first
    call of [loginbox] gives a [title_string] keyword, which [loginbox]
    passes to [autobox] twice, so the program ends with [TypeError]
    whatever the toolkit and the user do. *)
Theorem script_raises_TypeError (tk : Toolkit) (current : string)
    (sessions : list (list event)) :
  script tk current sessions = Script_raised TypeError.
Proof.
  assert (∀ events, loginbox tk (script_kwargs PyNone) current events
                    = Raised TypeError) as H.
  { intros events. apply (loginbox_keyword_clash _ _ _ _ "title_string").
    - apply list_elem_of_In. simpl. tauto.
    - exists (PyStr "Login"). reflexivity. }
  unfold script. destruct sessions as [|events sessions]; simpl; by rewrite H.
Qed.

(** ** The values of any result *)

(** Whatever the fields, duplicates included, and whatever the events:
    every value of a returned mapping is a string or a boolean. *)
Theorem result_values_str_or_bool (tk : Toolkit) (self : Autobox)
    (events : list event) (r : gmap string pyval) (k : string) (v : pyval) :
  mainloop tk self events = Some (Quit_with r) →
  r !! k = Some v →
  (∃ s, v = PyStr s) ∨ (∃ b, v = PyBool b).
Proof.
  intros Hloop Hv.
  apply (mainloop_inv tk (λ _, True)) in Hloop; [|done..].
  destruct Hloop as [->|(s & _ & Hok)]; [by rewrite lookup_empty in Hv|].
  apply ok_clicked_reads in Hok. specialize (Hok k).
  destruct (data s !! k) as [c|]; [|congruence].
  destruct Hok as (v' & Hget & Hr). assert (v' = v) as -> by congruence.
  unfold var_get in Hget. destruct (var_type c).
  - injection Hget as <-. left. eauto.
  - destruct (getboolean tk (var_value c)) as [b|]; [|done].
    injection Hget as <-. right. eauto.
Qed.

Lemma result_values_str_or_bool_witness :
  ∃ self r,
    Autobox_init tkinter (kw [("fields", PyList ex_fields)]) "default" = Ok self ∧
    mainloop tkinter self [Edit (Toggle 4); Click Ok_button] = Some (Quit_with r) ∧
    r !! "active" = Some (PyBool false) ∧
    ((∃ s, PyBool false = PyStr s) ∨ (∃ b, PyBool false = PyBool b)).
Proof.
  eexists _, _. split; [vm_compute; reflexivity|].
  match goal with |- ?A ∧ _ => assert A as Hloop by (vm_compute; reflexivity) end.
  split; [exact Hloop|]. split; [vm_compute; reflexivity|].
  apply (result_values_str_or_bool _ _ _ _ "active" _ Hloop).
  vm_compute; reflexivity.
Defined.
